(** * conditioner: CAN frame codec, dispatch and liveness of the air
    conditioner console (src/main.py), as a shallow embedding.

    The development follows the source top to bottom:
    - [Py]        the Python built-ins the program relies on (binary64
                  floats, [round], [int], [str], string formatting);
    - [CANClient] the frame encoder [_build_data], [send_from_key] and the
                  body of the reader loop [_rx_loop];
    - [ACControllerApp] the console state, the command handlers
                  [on_start], [on_stop], [on_set] and the periodic [_poll].

    Python integers are [Z] (unbounded, [&] is [Z.land], [>>] is
    [Z.shiftr]); Python floats are IEEE binary64 values of [spec_float];
    dictionaries with string keys are [gmap string _]; the fixed-shape
    dictionaries that travel through the queue are records whose optional
    keys are [option] fields. *)

From Stdlib Require Import ZArith Lia String Ascii List.
From Stdlib Require Import DecimalString DecimalZ HexadecimalString.
From Stdlib Require Import Floats.SpecFloat.
From stdpp Require Import gmap strings list.

Local Open Scope string_scope.
Local Open Scope list_scope.
Local Open Scope Z_scope.

(* ================================================================== *)
(** ** Python built-ins *)
(* ================================================================== *)

Module Py.

(** Python's [float] is IEEE 754 binary64. *)
Abbreviation float := spec_float.
Definition prec : Z := 53.
Definition emax : Z := 1024.

Definition fmul : float -> float -> float := SFmul prec emax.
Definition fsub : float -> float -> float := SFsub prec emax.
(** [a > b] on floats; false as soon as one side is NaN. *)
Definition fgt (a b : float) : bool := SFltb b a.

(** The correctly rounded binary64 value of an integer. *)
Definition float_of_Z (z : Z) : float := binary_normalize prec emax z 0 false.

(** A numeric value as a context can hold it. *)
Inductive value :=
| VInt (z : Z)
| VFloat (x : float).

(** [float(v)]: [None] stands for the OverflowError an integer beyond
    the binary64 range raises. *)
Definition to_float (v : value) : option float :=
  match v with
  | VFloat x => Some x
  | VInt z =>
      match float_of_Z z with
      | S754_infinity _ => None
      | x => Some x
      end
  end.

(** The exact value of a finite float as a fraction [(p, q)], [q > 0]:
    the float is [p / q]. *)
Definition fraction (x : float) : option (Z * Z) :=
  match x with
  | S754_zero _ => Some (0, 1)
  | S754_finite s m e =>
      if 0 <=? e then Some (cond_Zopp s (Z.pos m * 2 ^ e), 1)
      else Some (cond_Zopp s (Z.pos m), 2 ^ (- e))
  | S754_infinity _ | S754_nan => None
  end.

(** [round(p / q)] for [p >= 0], [q > 0]: to the nearest integer, a tie
    going to the even neighbour (Python 3's [float.__round__]). *)
Definition round_half_even_pos (p q : Z) : Z :=
  let n := p / q in
  let r := p mod q in
  match 2 * r ?= q with
  | Lt => n
  | Gt => n + 1
  | Eq => if Z.even n then n else n + 1
  end.

(** [int(round(x))]: [None] stands for the ValueError (NaN) or
    OverflowError (infinity) that [round] raises. *)
Definition round_int (x : float) : option Z :=
  match x with
  | S754_zero _ => Some 0
  | S754_finite s m e =>
      if 0 <=? e then Some (cond_Zopp s (Z.pos m * 2 ^ e))
      else Some (cond_Zopp s (round_half_even_pos (Z.pos m) (2 ^ (- e))))
  | S754_infinity _ | S754_nan => None
  end.

(** [s.lower()] on the ASCII letters. *)
Definition lower_ascii (c : ascii) : ascii :=
  let n := N_of_ascii c in
  if ((65 <=? n) && (n <=? 90))%N then ascii_of_N (n + 32) else c.

Fixpoint lower (s : string) : string :=
  match s with
  | EmptyString => EmptyString
  | String c s' => String (lower_ascii c) (lower s')
  end.

Definition upper_ascii (c : ascii) : ascii :=
  let n := N_of_ascii c in
  if ((97 <=? n) && (n <=? 122))%N then ascii_of_N (n - 32) else c.

Fixpoint upper (s : string) : string :=
  match s with
  | EmptyString => EmptyString
  | String c s' => String (upper_ascii c) (upper s')
  end.

(** [str(n)] of an integer. *)
Definition str_int (z : Z) : string :=
  DecimalString.NilZero.string_of_int (Z.to_int z).

(** [str(b)] of a boolean. *)
Definition str_bool (b : bool) : string := if b then "True" else "False".

(** [int(s)] on the plain decimal numerals ([-]digits), the only numerals
    the program ever hands to it; [None] stands for the ValueError. *)
Definition int_of_str (s : string) : option Z :=
  option_map Z.of_int (DecimalString.NilZero.int_of_string s).

(** ASCII white space, as [str.strip] removes it. *)
Definition is_space (c : ascii) : bool :=
  let n := N_of_ascii c in
  ((n =? 32) || ((9 <=? n) && (n <=? 13)) || ((28 <=? n) && (n <=? 31)))%N.

(** No character of [s] is white space. *)
Fixpoint no_space (s : string) : bool :=
  match s with
  | EmptyString => true
  | String c s' => negb (is_space c) && no_space s'
  end.

Fixpoint lstrip (s : string) : string :=
  match s with
  | EmptyString => EmptyString
  | String c s' => if is_space c then lstrip s' else s
  end.

Fixpoint rstrip (s : string) : string :=
  match s with
  | EmptyString => EmptyString
  | String c s' =>
      match rstrip s' with
      | EmptyString => if is_space c then EmptyString else String c EmptyString
      | r => String c r
      end
  end.

Definition strip (s : string) : string := rstrip (lstrip s).

(** [format(n, "X")]: upper-case hexadecimal, a minus sign first when
    negative. *)
Definition fmt_X (z : Z) : string :=
  upper (HexadecimalString.NilZero.string_of_int (Z.to_hex_int z)).

(** [format(n, "02X")]: the same, zero-filled to two characters. *)
Definition fmt_02X (z : Z) : string :=
  let s := fmt_X z in
  if (String.length s <? 2)%nat then ("0" ++ s)%string else s.

(** [" ".join(xs)]. *)
Fixpoint join_sp (xs : list string) : string :=
  match xs with
  | [] => ""
  | [x] => x
  | x :: rest => (x ++ " " ++ join_sp rest)%string
  end.

(** NaN or an infinity. *)
Definition nonfinite (x : float) : bool :=
  match x with
  | S754_infinity _ | S754_nan => true
  | _ => false
  end.

(** [pat in s]. *)
Definition contains (pat s : string) : bool :=
  match String.index 0 pat s with
  | Some _ => true
  | None => false
  end.

End Py.

Import Py.

(* ================================================================== *)
(** ** CANConfig and CANClient *)
(* ================================================================== *)

(** One entry of a [data_template]: a bare integer, or a dictionary with
    the optional keys [field], [value], [scale], [bytes] and [endian]
    ([None]: the key is absent). [scale] and [bytes] are held as the
    float and the integer that [float(...)] and [int(...)] make of the
    configured numbers. *)
Record field_tpl := {
  field : option string;
  value : option Z;
  scale : option float;
  bytes : option Z;
  endian : option string
}.

Inductive tpl_item :=
| TInt (n : Z)
| TDict (item : field_tpl).

(** One entry of [messages]: [id], [extended], and a literal [data] list
    or a [data_template]. *)
Record msg_def := {
  msg_id : option Z;
  extended : option bool;
  data : option (list Z);
  data_template : option (list tpl_item)
}.

(** The fields of [CANConfig] that the codec reads. *)
Record CANConfig := {
  messages : gmap string msg_def;
  telemetry_id : Z;
  telemetry_ext : bool;
  inverter_id : Z;
  inverter_ext : bool
}.

(** A frame as python-can hands it over or takes it. *)
Record Message := {
  arbitration_id : Z;
  is_extended_id : bool;
  msg_data : list Z
}.

(** The dictionaries that travel through [rx_queue], by their ['type'],
    and the plain text lines. In an ['inv'] dictionary the keys [err5],
    [state6] and [state7] are present or not. *)
Record telemetry_item := {
  tel_err : Z; tel_set : Z; tel_temp : Z; tel_cond : Z;
  tel_fan_raw : Z; tel_state_raw : Z; tel_raw : list Z
}.

Record inv_item := {
  inv_cur : Z; inv_volt : Z; inv_temp : Z; inv_raw : list Z;
  inv_err5 : option Z; inv_state6 : option Z; inv_state7 : option Z
}.

Record tx_item := { tx_id : Z; tx_ext : bool; tx_data : list Z }.

Inductive rx_item :=
| Telemetry (t : telemetry_item)
| Inv (i : inv_item)
| Tx (t : tx_item)
| Text (s : string).

Module CANClient.

(** 1.0, the default scale. *)
Definition one : float := S754_finite false 4503599627370496 (-52).

(** [num] of a templated field: [int(round(float(val) * scale))] with
    [val = ctx.get(field, 0)], and 0 when the conversion raises. *)
Definition field_num (ctx : gmap string Py.value) (key : string) (sc : float) : Z :=
  let val := default (VInt 0) (ctx !! key) in
  match to_float val with
  | Some x =>
      match round_int (fmul x sc) with
      | Some n => n
      | None => 0
      end
  | None => 0
  end.

(** The bytes one number contributes, by width and (lower-cased)
    endianness tag: the [if width == 1 ... elif ... else] chain. *)
Definition serialize (num width : Z) (en : string) : list Z :=
  if width =? 1 then [Z.land num 0xFF]
  else if width =? 2 then
    let b0 := Z.land num 0xFF in
    let b1 := Z.land (Z.shiftr num 8) 0xFF in
    if String.eqb en "le" then [b0; b1] else [b1; b0]
  else if width =? 4 then
    let bs := map (fun i => Z.land (Z.shiftr num (8 * i)) 0xFF) [0; 1; 2; 3] in
    if String.eqb en "be" then rev bs else bs
  else [Z.land num 0xFF].

(** What a field dictionary with a [field] key appends to [out]. *)
Definition field_bytes (ctx : gmap string Py.value) (key : string) (item : field_tpl) : list Z :=
  let sc := default one (scale item) in
  let width := default 1 (bytes item) in
  let en := lower (default "le" (endian item)) in
  serialize (field_num ctx key sc) width en.

(** What one template entry appends to [out], whichever kind it is. *)
Definition item_bytes (ctx : gmap string Py.value) (it : tpl_item) : list Z :=
  match it with
  | TInt n => [Z.land n 0xFF]
  | TDict item =>
      match field item with
      | None => [Z.land (default 0 (value item)) 0xFF]
      | Some key => field_bytes ctx key item
      end
  end.

(** The [for item in tpl] loop over the accumulator [out]. The two
    constant kinds [continue] past the length test; a templated field
    reaches it and [break]s once 8 bytes are there. *)
Fixpoint tpl_loop (ctx : gmap string Py.value) (tpl : list tpl_item) (out : list Z) : list Z :=
  match tpl with
  | [] => out
  | TInt n :: rest => tpl_loop ctx rest (out ++ [Z.land n 0xFF])
  | TDict item :: rest =>
      match field item with
      | None => tpl_loop ctx rest (out ++ [Z.land (default 0 (value item)) 0xFF])
      | Some key =>
          let out' := out ++ field_bytes ctx key item in
          if (8 <=? length out')%nat then out' else tpl_loop ctx rest out'
      end
  end.

(** [while len(data) < 8: data.append(0)], with the number of turns it
    may take as fuel. *)
Fixpoint pad_loop (fuel : nat) (d : list Z) : list Z :=
  match fuel with
  | O => d
  | S fuel' => if (length d <? 8)%nat then pad_loop fuel' (d ++ [0]) else d
  end.

Definition _build_data (md : msg_def) (ctx : gmap string Py.value) : list Z :=
  let d :=
    match data md with
    | Some xs => take 8 (map (fun x => Z.land x 0xFF) xs)
    | None => take 8 (tpl_loop ctx (default [] (data_template md)) [])
    end in
  take 8 (pad_loop 8 d).

(** What a command handler's call comes to: it returns, or an
    exception leaves it. *)
Inductive exn :=
| RuntimeError (text : string)
| TypeError (text : string).

(** The client object: its configuration and whether [self.bus] is
    set. *)
Record t := { cfg : CANConfig; bus : bool }.

(** An empty dictionary is falsy. *)
Definition is_empty_def (md : msg_def) : bool :=
  match msg_id md, extended md, data md, data_template md with
  | None, None, None, None => true
  | _, _, _, _ => false
  end.

(** [send_from_key]: the frame handed to [bus.send] and the ['tx']
    dictionary queued after it, or the exception raised before any of
    the two. (A failure inside [bus.send] is the transport's and is not
    modelled.) *)
Definition send_from_key (c : t) (key : string) (ctx : gmap string Py.value)
  : exn + (Message * rx_item) :=
  if negb (bus c) then inl (RuntimeError "CAN не открыт")
  else
    match messages (cfg c) !! key with
    | None => inl (RuntimeError ("Нет секции messages." ++ key)%string)
    | Some md =>
        if is_empty_def md then inl (RuntimeError ("Нет секции messages." ++ key)%string)
        else
          match msg_id md with
          | None => inl (TypeError "int() argument must be a string, a bytes-like object or a real number, not 'NoneType'")
          | Some arb_id =>
              let is_ext := default false (extended md) in
              let d := _build_data md ctx in
              inr ({| arbitration_id := arb_id; is_extended_id := is_ext; msg_data := d |},
                   Tx {| tx_id := arb_id; tx_ext := is_ext; tx_data := d |})
          end
    end.

(** [_dbg]: the line it puts on the queue; [ts] is the clock reading
    [time.strftime("%H:%M:%S")]. *)
Definition _dbg (ts text : string) : rx_item :=
  Text ("[" ++ ts ++ "] DBG: " ++ text)%string.

Definition hex_bytes (d : list Z) : string := join_sp (map fmt_02X d).

(** The three text lines of the reader loop. *)
Definition telem_line (d0 d1 d2 d3 d6 d7 : Z) : string :=
  ("TELEM set=" ++ str_int d1 ++ " temp=" ++ str_int d2 ++ " cond=" ++ str_int d3
     ++ " fan_byte=0x" ++ fmt_02X d6 ++ " state_byte=0x" ++ fmt_02X d7
     ++ " err=" ++ str_int d0)%string.

Definition inv_line (d0 d1 d2 : Z) (e5 s6 s7 : option Z) : string :=
  ("INV cur=" ++ str_int d0 ++ " volt=" ++ str_int d1 ++ " temp=" ++ str_int d2
     ++ match e5 with Some b => " err5=0x" ++ fmt_02X b | None => "" end
     ++ match s6 with Some b => " st6=" ++ str_int b | None => "" end
     ++ match s7 with Some b => " st7=" ++ str_int b | None => "" end)%string.

Definition not_matched_line (c : CANConfig) (got_id : Z) (got_ext : bool) (got_len : Z) : string :=
  ("DBG: not matched → id=0x" ++ fmt_X got_id ++ " ext=" ++ str_bool got_ext
     ++ " len=" ++ str_int got_len ++ " | telemetry exp: id=0x" ++ fmt_X (telemetry_id c)
     ++ " ext=" ++ str_bool (telemetry_ext c) ++ " len>=8 ; inverter exp: id=0x"
     ++ fmt_X (inverter_id c) ++ " ext=" ++ str_bool (inverter_ext c) ++ " len>=3")%string.

Definition can_rx_line (got_id : Z) (d : list Z) : string :=
  ("CAN RX id=0x" ++ fmt_X got_id ++ " data=" ++ hex_bytes d)%string.

(** The [try] block of [_rx_loop] for one received frame, after the
    [_dbg] call: the items it puts on the queue, or [None] when an index
    expression [d[i]] raises. *)
Definition rx_try (c : CANConfig) (msg : Message) : option (list rx_item) :=
  let tid := telemetry_id c in
  let text := telemetry_ext c in
  let iid := inverter_id c in
  let iext := inverter_ext c in
  let got_id := arbitration_id msg in
  let got_ext := is_extended_id msg in
  let d := msg_data msg in
  let got_len := Z.of_nat (length d) in
  if (got_id =? tid) && Bool.eqb got_ext text && (8 <=? got_len) then
    d0 ← d !! 0%nat; d1 ← d !! 1%nat; d2 ← d !! 2%nat; d3 ← d !! 3%nat;
    d6 ← d !! 6%nat; d7 ← d !! 7%nat;
    Some [Telemetry {| tel_err := d0; tel_set := d1; tel_temp := d2; tel_cond := d3;
                       tel_fan_raw := d6; tel_state_raw := d7; tel_raw := d |};
          Text (telem_line d0 d1 d2 d3 d6 d7)]
  else if (got_id =? iid) && Bool.eqb got_ext iext && (3 <=? got_len) then
    d0 ← d !! 0%nat; d1 ← d !! 1%nat; d2 ← d !! 2%nat;
    e5 ← (if 6 <=? got_len then Some <$> d !! 5%nat else Some None);
    s6 ← (if 7 <=? got_len then Some <$> d !! 6%nat else Some None);
    s7 ← (if 8 <=? got_len then Some <$> d !! 7%nat else Some None);
    Some [Inv {| inv_cur := d0; inv_volt := d1; inv_temp := d2;
                 inv_raw := take (Z.to_nat (Z.max 3 got_len)) d;
                 inv_err5 := e5; inv_state6 := s6; inv_state7 := s7 |};
          Text (inv_line d0 d1 d2 e5 s6 s7)]
  else
    Some [Text (not_matched_line c got_id got_ext got_len);
          Text (can_rx_line got_id d)].

(** One turn of the [while] loop of [_rx_loop] on a received frame:
    everything it puts on [rx_queue], in order. *)
Definition rx_line (msg : Message) : string :=
  ("RX id=0x" ++ fmt_X (arbitration_id msg) ++ " ext=" ++ str_bool (is_extended_id msg)
     ++ " len=" ++ str_int (Z.of_nat (length (msg_data msg))))%string.

Definition rx_step (c : CANConfig) (ts : string) (msg : Message) : list rx_item :=
  _dbg ts (rx_line msg)
  :: match rx_try c msg with
     | Some items => items
     | None => [Text "CANRXERR=index out of range"]
     end.

(** [_rx_loop] over the results of successive [bus.recv] calls ([None]:
    the 250 ms wait ran out), each with the clock reading of its turn. *)
Definition _rx_loop (c : CANConfig) (recvs : list (string * option Message)) : list rx_item :=
  concat (map (fun r => match r.2 with
                        | None => []
                        | Some msg => rx_step c r.1 msg
                        end) recvs).




End CANClient.

(* ================================================================== *)
(** ** ACControllerApp *)
(* ================================================================== *)

Module ACControllerApp.

Definition MAIN_STATE : gmap Z string :=
  list_to_map [(0, "выключено"); (1, "тестирование"); (2, "ожидание");
               (3, "работа"); (4, "ошибка"); (5, "продувка")].

Definition SUB_STATE : gmap Z string :=
  list_to_map [(0, "перед выключением"); (1, "выключено"); (2, "работа");
               (3, "перед ожиданием"); (4, "ожидание")].

(** Inverter: [Main] is byte 7, [Sub] is byte 6. *)
Definition INV_MAIN : gmap Z string :=
  list_to_map [(0, "выключено"); (1, "пауза"); (2, "плавное выключение");
               (3, "включено"); (4, "перед отключением")].

Definition INV_SUB : gmap Z string :=
  list_to_map [(0, "выключено"); (1, "включено"); (2, "пауза");
               (3, "плавное выключение")].

(** 10.0 seconds. *)
Definition TIMEOUT_S : float := S754_finite false 5629499534213120 (-49).

(** [f"неизв({n})"], the text for a value no table has. *)
Definition unknown (n : Z) : string := ("неизв(" ++ str_int n ++ ")")%string.

(** The Tk variables of the controller block, of the inverter block, and
    the confirmed fan speeds. *)
Record ctrl_vars := {
  var_temp : string; var_cond : string; var_set : string;
  var_state_main : string; var_state_sub : string; var_err : string;
  var_fan_level_c : Z; var_fan_level_e : Z;
  var_fan_pct_c : Z; var_fan_pct_e : Z
}.

Record inv_vars := {
  var_inv_cur : string; var_inv_volt : string; var_inv_temp : string;
  var_inv_main : string; var_inv_sub : string; var_inv_errs : string
}.

Record speed_conf := { c1 : Z; c2 : Z; c3 : Z; e1 : Z; e2 : Z; e3 : Z }.

(** The calls that leave the application, in the order they are made:
    the warning box, [bus.send], and the two display resets (kept as
    calls so that they can be counted). *)
Inductive effect :=
| ShowWarning (title text : string)
| BusSend (m : Message)
| ResetCtrlDisplay
| ResetInvDisplay.

Record App := {
  _rx_q : list rx_item;
  _client : option CANClient.t;
  ctrl : ctrl_vars;
  inv : inv_vars;
  _last_main_state : option Z;
  var_set_input : Z;
  _speed_conf : speed_conf;
  _last_ctrl_rx : float;
  _last_inv_rx : float;
  _ctrl_valid : bool;
  _inv_valid : bool;
  txt_log : list string;
  trace : list effect
}.

(** Field updates. *)
Definition set_rx_q (q : list rx_item) (a : App) : App :=
  {| _rx_q := q; _client := _client a; ctrl := ctrl a; inv := inv a;
     _last_main_state := _last_main_state a; var_set_input := var_set_input a;
     _speed_conf := _speed_conf a; _last_ctrl_rx := _last_ctrl_rx a;
     _last_inv_rx := _last_inv_rx a; _ctrl_valid := _ctrl_valid a;
     _inv_valid := _inv_valid a; txt_log := txt_log a; trace := trace a |}.

Definition set_client (c : option CANClient.t) (a : App) : App :=
  {| _rx_q := _rx_q a; _client := c; ctrl := ctrl a; inv := inv a;
     _last_main_state := _last_main_state a; var_set_input := var_set_input a;
     _speed_conf := _speed_conf a; _last_ctrl_rx := _last_ctrl_rx a;
     _last_inv_rx := _last_inv_rx a; _ctrl_valid := _ctrl_valid a;
     _inv_valid := _inv_valid a; txt_log := txt_log a; trace := trace a |}.

Definition set_ctrl (v : ctrl_vars) (a : App) : App :=
  {| _rx_q := _rx_q a; _client := _client a; ctrl := v; inv := inv a;
     _last_main_state := _last_main_state a; var_set_input := var_set_input a;
     _speed_conf := _speed_conf a; _last_ctrl_rx := _last_ctrl_rx a;
     _last_inv_rx := _last_inv_rx a; _ctrl_valid := _ctrl_valid a;
     _inv_valid := _inv_valid a; txt_log := txt_log a; trace := trace a |}.

Definition set_inv (v : inv_vars) (a : App) : App :=
  {| _rx_q := _rx_q a; _client := _client a; ctrl := ctrl a; inv := v;
     _last_main_state := _last_main_state a; var_set_input := var_set_input a;
     _speed_conf := _speed_conf a; _last_ctrl_rx := _last_ctrl_rx a;
     _last_inv_rx := _last_inv_rx a; _ctrl_valid := _ctrl_valid a;
     _inv_valid := _inv_valid a; txt_log := txt_log a; trace := trace a |}.

Definition set_last_main_state (m : option Z) (a : App) : App :=
  {| _rx_q := _rx_q a; _client := _client a; ctrl := ctrl a; inv := inv a;
     _last_main_state := m; var_set_input := var_set_input a;
     _speed_conf := _speed_conf a; _last_ctrl_rx := _last_ctrl_rx a;
     _last_inv_rx := _last_inv_rx a; _ctrl_valid := _ctrl_valid a;
     _inv_valid := _inv_valid a; txt_log := txt_log a; trace := trace a |}.

Definition set_ctrl_rx (last : float) (valid : bool) (a : App) : App :=
  {| _rx_q := _rx_q a; _client := _client a; ctrl := ctrl a; inv := inv a;
     _last_main_state := _last_main_state a; var_set_input := var_set_input a;
     _speed_conf := _speed_conf a; _last_ctrl_rx := last;
     _last_inv_rx := _last_inv_rx a; _ctrl_valid := valid;
     _inv_valid := _inv_valid a; txt_log := txt_log a; trace := trace a |}.

Definition set_inv_rx (last : float) (valid : bool) (a : App) : App :=
  {| _rx_q := _rx_q a; _client := _client a; ctrl := ctrl a; inv := inv a;
     _last_main_state := _last_main_state a; var_set_input := var_set_input a;
     _speed_conf := _speed_conf a; _last_ctrl_rx := _last_ctrl_rx a;
     _last_inv_rx := last; _ctrl_valid := _ctrl_valid a;
     _inv_valid := valid; txt_log := txt_log a; trace := trace a |}.

Definition emit (e : effect) (a : App) : App :=
  {| _rx_q := _rx_q a; _client := _client a; ctrl := ctrl a; inv := inv a;
     _last_main_state := _last_main_state a; var_set_input := var_set_input a;
     _speed_conf := _speed_conf a; _last_ctrl_rx := _last_ctrl_rx a;
     _last_inv_rx := _last_inv_rx a; _ctrl_valid := _ctrl_valid a;
     _inv_valid := _inv_valid a; txt_log := txt_log a; trace := trace a ++ [e] |}.

(** [_log]: one more line in the journal; [ts] is the clock reading. *)
Definition _log (ts text : string) (a : App) : App :=
  {| _rx_q := _rx_q a; _client := _client a; ctrl := ctrl a; inv := inv a;
     _last_main_state := _last_main_state a; var_set_input := var_set_input a;
     _speed_conf := _speed_conf a; _last_ctrl_rx := _last_ctrl_rx a;
     _last_inv_rx := _last_inv_rx a; _ctrl_valid := _ctrl_valid a;
     _inv_valid := _inv_valid a;
     txt_log := txt_log a ++ [("[" ++ ts ++ "] " ++ text)%string];
     trace := trace a |}.

(** The state [__init__] leaves (0.0 is the float zero). *)
Definition init : App :=
  {| _rx_q := []; _client := None;
     ctrl := {| var_temp := "--"; var_cond := "--"; var_set := "--";
                var_state_main := "—"; var_state_sub := "—"; var_err := "нет";
                var_fan_level_c := 0; var_fan_level_e := 0;
                var_fan_pct_c := 0; var_fan_pct_e := 0 |};
     inv := {| var_inv_cur := "--"; var_inv_volt := "--"; var_inv_temp := "--";
               var_inv_main := "—"; var_inv_sub := "—"; var_inv_errs := "—" |};
     _last_main_state := None;
     var_set_input := 25;
     _speed_conf := {| c1 := 30; c2 := 60; c3 := 90; e1 := 30; e2 := 60; e3 := 90 |};
     _last_ctrl_rx := S754_zero false;
     _last_inv_rx := S754_zero false;
     _ctrl_valid := false; _inv_valid := false;
     txt_log := []; trace := [] |}.

(** [_update_gauges_with_current_levels] (the canvases are drawings of
    the two percentages and are left out). *)
Definition _update_gauges_with_current_levels (a : App) : App :=
  let v := ctrl a in
  let sc := _speed_conf a in
  let pct_map_c : gmap Z Z := list_to_map [(0, 0); (1, c1 sc); (2, c2 sc); (3, c3 sc)] in
  let pct_map_e : gmap Z Z := list_to_map [(0, 0); (1, e1 sc); (2, e2 sc); (3, e3 sc)] in
  let pct_c := default 0 (pct_map_c !! var_fan_level_c v) in
  let pct_e := default 0 (pct_map_e !! var_fan_level_e v) in
  set_ctrl {| var_temp := var_temp v; var_cond := var_cond v; var_set := var_set v;
              var_state_main := var_state_main v; var_state_sub := var_state_sub v;
              var_err := var_err v;
              var_fan_level_c := var_fan_level_c v; var_fan_level_e := var_fan_level_e v;
              var_fan_pct_c := pct_c; var_fan_pct_e := pct_e |} a.

Definition _reset_ctrl_display (a : App) : App :=
  let v := ctrl a in
  _update_gauges_with_current_levels
    (set_ctrl {| var_temp := "--"; var_cond := "--"; var_set := "--";
                 var_state_main := "—"; var_state_sub := "—"; var_err := "нет";
                 var_fan_level_c := 0; var_fan_level_e := 0;
                 var_fan_pct_c := var_fan_pct_c v; var_fan_pct_e := var_fan_pct_e v |}
       (emit ResetCtrlDisplay a)).

Definition _reset_inv_display (a : App) : App :=
  set_inv {| var_inv_cur := "--"; var_inv_volt := "--"; var_inv_temp := "--";
             var_inv_main := "—"; var_inv_sub := "—"; var_inv_errs := "—" |}
    (emit ResetInvDisplay a).

(** [", ".join(items)]. *)
Fixpoint join_comma (xs : list string) : string :=
  match xs with
  | [] => ""
  | [x] => x
  | x :: rest => (x ++ ", " ++ join_comma rest)%string
  end.

Definition _format_inv_errors (mask : Z) : string :=
  let items :=
    (if Z.land mask 0x01 =? 0 then [] else ["Превышение макс. тока"])
    ++ (if Z.land mask 0x02 =? 0 then [] else ["Не норма U1"])
    ++ (if Z.land mask 0x04 =? 0 then [] else ["Не норма U2"])
    ++ (if Z.land mask 0x08 =? 0 then [] else ["Превышение макс. температуры"])
    ++ (if Z.land mask 0x10 =? 0 then [] else ["Флаг 18В"]) in
  match items with
  | [] => "—"
  | _ => join_comma items
  end.

(** [_poll], the branch for a ['telemetry'] dictionary. *)
Definition on_telemetry (now : float) (ts : string) (item : telemetry_item) (a : App) : App :=
  let a := set_ctrl_rx now true a in
  let v := ctrl a in
  let fan_byte := tel_fan_raw item in
  let lvl_c := Z.max 0 (Z.min 3 (Z.land (Z.shiftr fan_byte 4) 0x0F)) in
  let lvl_e := Z.max 0 (Z.min 3 (Z.land fan_byte 0x0F)) in
  let a :=
    set_ctrl {| var_temp := str_int (tel_temp item); var_cond := str_int (tel_cond item);
                var_set := str_int (tel_set item);
                var_state_main := var_state_main v; var_state_sub := var_state_sub v;
                var_err := str_int (tel_err item);
                var_fan_level_c := lvl_c; var_fan_level_e := lvl_e;
                var_fan_pct_c := var_fan_pct_c v; var_fan_pct_e := var_fan_pct_e v |} a in
  let a := _update_gauges_with_current_levels a in
  let v := ctrl a in
  let state_byte := tel_state_raw item in
  let main := Z.land (Z.shiftr state_byte 4) 0x0F in
  let sub := Z.land state_byte 0x0F in
  let a := set_last_main_state (Some main) a in
  let main_txt := default (unknown main) (MAIN_STATE !! main) in
  let sub_txt := default (unknown sub) (SUB_STATE !! sub) in
  let a :=
    set_ctrl {| var_temp := var_temp v; var_cond := var_cond v; var_set := var_set v;
                var_state_main := ("Main: " ++ main_txt)%string;
                var_state_sub := ("Sub:  " ++ sub_txt)%string;
                var_err := var_err v;
                var_fan_level_c := var_fan_level_c v; var_fan_level_e := var_fan_level_e v;
                var_fan_pct_c := var_fan_pct_c v; var_fan_pct_e := var_fan_pct_e v |} a in
  match tel_raw item with
  | [] => a
  | raw => _log ts ("RX TELEM: " ++ CANClient.hex_bytes raw)%string a
  end.

(** [_poll], the branch for an ['inv'] dictionary. *)
Definition on_inv (now : float) (ts : string) (item : inv_item) (a : App) : App :=
  let a := set_inv_rx now true a in
  let v := inv a in
  let a :=
    set_inv {| var_inv_cur := str_int (inv_cur item); var_inv_volt := str_int (inv_volt item);
               var_inv_temp := str_int (inv_temp item);
               var_inv_main :=
                 match inv_state7 item with
                 | Some s7 => ("Main: " ++ default (unknown s7) (INV_MAIN !! s7))%string
                 | None => var_inv_main v
                 end;
               var_inv_sub :=
                 match inv_state6 item with
                 | Some s6 => ("Sub:  " ++ default (unknown s6) (INV_SUB !! s6))%string
                 | None => var_inv_sub v
                 end;
               var_inv_errs :=
                 match inv_err5 item with
                 | Some e5 => _format_inv_errors e5
                 | None => var_inv_errs v
                 end |} a in
  match inv_raw item with
  | [] => a
  | raw => _log ts ("RX INV: " ++ CANClient.hex_bytes raw)%string a
  end.

(** [_poll], the body of the [while True] loop for one queue item. *)
Definition on_item (now : float) (ts : string) (a : App) (item : rx_item) : App :=
  match item with
  | Telemetry t => on_telemetry now ts t a
  | Inv i => on_inv now ts i a
  | Tx t => _log ts ("TX id=0x" ++ fmt_X (tx_id t) ++ " data=" ++ CANClient.hex_bytes (tx_data t))%string a
  | Text s => _log ts s a
  end.

(** [_poll], the two timeout tests after the queue is drained. *)
Definition ctrl_timeout (now : float) (ts : string) (a : App) : App :=
  if _ctrl_valid a && fgt (fsub now (_last_ctrl_rx a)) TIMEOUT_S then
    _log ts "DBG: timeout controller telemetry → reset display"
      (_reset_ctrl_display (set_ctrl_rx (_last_ctrl_rx a) false a))
  else a.

Definition inv_timeout (now : float) (ts : string) (a : App) : App :=
  if _inv_valid a && fgt (fsub now (_last_inv_rx a)) TIMEOUT_S then
    _log ts "DBG: timeout inverter telemetry → reset display"
      (_reset_inv_display (set_inv_rx (_last_inv_rx a) false a))
  else a.

(** [_poll] at clock reading [now] ([ts] is its [strftime] text): the
    queue is drained item by item, then the two timeouts are tested. *)
Definition _poll (now : float) (ts : string) (a : App) : App :=
  let a := fold_left (on_item now ts) (_rx_q a) (set_rx_q [] a) in
  inv_timeout now ts (ctrl_timeout now ts a).

(** The reader thread puts [items] on the queue. *)
Definition deliver (items : list rx_item) (a : App) : App :=
  set_rx_q (_rx_q a ++ items) a.

(** *** Command handlers *)

Definition _get_state_setpoint (a : App) : option Z :=
  int_of_str (strip (var_set (ctrl a))).

Definition _send_can (key : string) (ctx : gmap string Py.value) (a : App)
  : CANClient.exn + App :=
  match _client a with
  | None => inl (CANClient.RuntimeError "CAN не подключен")
  | Some c =>
      match CANClient.send_from_key c key ctx with
      | inl e => inl e
      | inr (m, q) => inr (deliver [q] (emit (BusSend m) a))
      end
  end.

Definition no_setpoint_warning : effect :=
  ShowWarning "Уставка неизвестна"
    "Уставка в блоке «Состояние кондиционера» ещё не получена от контроллера.".

Definition on_start (a : App) : CANClient.exn + App :=
  match _get_state_setpoint a with
  | None => inr (emit no_setpoint_warning a)
  | Some val => _send_can "START" {[ "value" := VInt val ]} a
  end.

Definition on_stop (a : App) : CANClient.exn + App :=
  match _get_state_setpoint a with
  | None => inr (emit no_setpoint_warning a)
  | Some val => _send_can "STOP" {[ "value" := VInt val ]} a
  end.

(** The context [on_set] builds: the spin box value and the mode. *)
Definition set_ctx (a : App) : gmap string Py.value :=
  let val := var_set_input a in
  let main := _last_main_state a in
  let mode := if bool_decide (main = Some 2) then 0x00 else 0x20 in
  <[ "mode" := VInt mode ]> {[ "value" := VInt val ]}.

Definition on_set (a : App) : CANClient.exn + App :=
  _send_can "SET" (set_ctx a) a.

Definition set_speed_conf (sc : speed_conf) (a : App) : App :=
  {| _rx_q := _rx_q a; _client := _client a; ctrl := ctrl a; inv := inv a;
     _last_main_state := _last_main_state a; var_set_input := var_set_input a;
     _speed_conf := sc; _last_ctrl_rx := _last_ctrl_rx a;
     _last_inv_rx := _last_inv_rx a; _ctrl_valid := _ctrl_valid a;
     _inv_valid := _inv_valid a; txt_log := txt_log a; trace := trace a |}.

(** The context [on_send_speeds] builds from the six sliders. *)
Definition speed_ctx (v : speed_conf) : gmap string Py.value :=
  list_to_map [("c1", VInt (c1 v)); ("c2", VInt (c2 v)); ("c3", VInt (c3 v));
               ("e1", VInt (e1 v)); ("e2", VInt (e2 v)); ("e3", VInt (e3 v))].

(** [on_send_speeds] with the sliders at [v]: the send comes first, and
    only when it returns are the confirmed speeds replaced and the gauges
    recomputed. *)
Definition on_send_speeds (v : speed_conf) (a : App) : CANClient.exn + App :=
  match _send_can "PARAMS_SPEED" (speed_ctx v) a with
  | inl e => inl e
  | inr a' => inr (_update_gauges_with_current_levels (set_speed_conf v a'))
  end.

(** [on_send_temps] with the four spin boxes at [t1] .. [t4]. *)
Definition on_send_temps (t1 t2 t3 t4 : Z) (a : App) : CANClient.exn + App :=
  _send_can "PARAMS_TEMP"
    (list_to_map [("t1", VInt t1); ("t2", VInt t2); ("t3", VInt t3); ("t4", VInt t4)]) a.

End ACControllerApp.

(* ================================================================== *)
(** ** The specification's own wording, where it is compared with the
    code *)
(* ================================================================== *)

Module Spec.

(** Rounding of [p / q] ([q > 0]) to the nearest integer, a tie going
    away from zero. *)
Definition round_half_away (p q : Z) : Z :=
  Z.sgn p * ((2 * Z.abs p + q) / (2 * q)).

Definition round_half_away_float (x : float) : option Z :=
  match fraction x with
  | Some (p, q) => Some (round_half_away p q)
  | None => None
  end.

(** [n] is [p / q] rounded to the nearest integer, a tie going to the
    even neighbour. *)
Definition nearest_ties_even (p q n : Z) : Prop :=
  2 * Z.abs (n * q - p) <= q /\ (2 * Z.abs (n * q - p) = q -> Z.even n = true).

(** The two nibbles of a byte. *)
Definition high_nibble (b : Z) : Z := Z.land (Z.shiftr b 4) 0xF.
Definition low_nibble (b : Z) : Z := Z.land b 0xF.

(** An inbound channel signature: the arbitration id and the extended
    flag are compared exactly, the payload length against a minimum. *)
Definition matches (id : Z) (ext : bool) (min_len : Z) (msg : Message) : Prop :=
  arbitration_id msg = id /\ is_extended_id msg = ext
  /\ min_len <= Z.of_nat (length (msg_data msg)).

Definition controller_signature (c : CANConfig) : Message -> Prop :=
  matches (telemetry_id c) (telemetry_ext c) 8.

Definition inverter_signature (c : CANConfig) : Message -> Prop :=
  matches (inverter_id c) (inverter_ext c) 3.

(** The liveness state machine of one inbound channel: the next state
    and whether the reset event fires, from whether the check saw a
    snapshot arrive and whether it saw [now - lastSeen > 10 s]. *)
Inductive liveness := Unseen | Valid | Stale.

Definition next (l : liveness) (snapshot timed_out : bool) : liveness * bool :=
  if snapshot then (Valid, false)
  else
    match l with
    | Unseen => (Unseen, false)
    | Valid => if timed_out then (Stale, true) else (Valid, false)
    | Stale => (Stale, false)
    end.

(** The number a little-endian byte sequence stands for. *)
Definition le_value (bs : list Z) : Z :=
  fold_right (fun b acc => b + 256 * acc) 0 bs.

(** A byte. *)
Definition is_byte (b : Z) : Prop := 0 <= b < 256.

End Spec.

(* ================================================================== *)
(** ** Sessions: the application driven by its events *)
(* ================================================================== *)

Module Session.
Import ACControllerApp.

(** What the application reacts to: a timer period (the reader thread
    queued [items] during it, then [_poll] ran at clock reading [now]),
    the three command buttons, and a change of [_client] (the effect of
    [on_connect] and [on_disconnect] on it; their status line and
    journal entries are not modelled). *)
Inductive event :=
| Tick (now : float) (ts : string) (items : list rx_item)
| Start
| Stop
| SetPoint
| Client (c : option CANClient.t).

(** An exception that leaves a button handler leaves the state as it
    was. *)
Definition settle (a : App) (r : CANClient.exn + App) : App :=
  match r with
  | inr a' => a'
  | inl _ => a
  end.

Definition step (a : App) (ev : event) : App :=
  match ev with
  | Tick now ts items => _poll now ts (deliver items a)
  | Start => settle a (on_start a)
  | Stop => settle a (on_stop a)
  | SetPoint => settle a (on_set a)
  | Client c => set_client c a
  end.

Definition run (a : App) (evs : list event) : App := fold_left step evs a.

(** The two inbound channels and their liveness records. *)
Inductive channel := Controller | Inverter.

Definition valid (ch : channel) (a : App) : bool :=
  match ch with
  | Controller => _ctrl_valid a
  | Inverter => _inv_valid a
  end.

Definition last_rx (ch : channel) (a : App) : float :=
  match ch with
  | Controller => _last_ctrl_rx a
  | Inverter => _last_inv_rx a
  end.

Definition is_snapshot (ch : channel) (i : rx_item) : bool :=
  match ch, i with
  | Controller, Telemetry _ => true
  | Inverter, Inv _ => true
  | _, _ => false
  end.

Definition has_snapshot (ch : channel) (items : list rx_item) : bool :=
  existsb (is_snapshot ch) items.

Definition is_reset (ch : channel) (e : effect) : bool :=
  match ch, e with
  | Controller, ResetCtrlDisplay => true
  | Inverter, ResetInvDisplay => true
  | _, _ => false
  end.

(** How many times the display reset of a channel has been called. *)
Definition resets (ch : channel) (a : App) : nat :=
  length (filter (fun e => is_reset ch e = true) (trace a)).

(** What a history of events says by itself: the clock reading of the
    last period in which a snapshot of the channel arrived, and the last
    controller snapshot. *)
Definition last_seen (ch : channel) (evs : list event) : option float :=
  fold_left (fun acc ev =>
               match ev with
               | Tick now _ items => if has_snapshot ch items then Some now else acc
               | _ => acc
               end) evs None.

Definition last_telemetry (items : list rx_item) (acc : option telemetry_item)
  : option telemetry_item :=
  fold_left (fun acc i => match i with Telemetry t => Some t | _ => acc end) items acc.

Definition last_snapshot (evs : list event) : option telemetry_item :=
  fold_left (fun acc ev =>
               match ev with
               | Tick _ _ items => last_telemetry items acc
               | _ => acc
               end) evs None.

(** The check of a period at [now] sees [now - lastSeen > 10 s]. *)
Definition timed_out (ch : channel) (evs : list event) (now : float) : bool :=
  match last_seen ch evs with
  | Some t => fgt (fsub now t) TIMEOUT_S
  | None => false
  end.

(** Whether the check of [_poll] on the state [a] fires the reset of a
    channel: the channel is valid once the queue is drained, and
    [now - last > TIMEOUT_S] for the time stamp it then has. *)
Definition fires (ch : channel) (now : float) (a : App) : bool :=
  (has_snapshot ch (_rx_q a) || valid ch a)
  && fgt (fsub now (if has_snapshot ch (_rx_q a) then now else last_rx ch a)) TIMEOUT_S.

(** The queue holds ['tx'] dictionaries only. *)
Definition only_tx (q : list rx_item) : bool :=
  forallb (fun i => match i with Tx _ => true | _ => false end) q.

(** Two states that differ at most in the client, the queue (by ['tx']
    items), the journal and effects other than display resets. *)
Definition same_view (a a' : App) : Prop :=
  ctrl a' = ctrl a /\ _last_main_state a' = _last_main_state a
  /\ var_set_input a' = var_set_input a
  /\ (forall ch, valid ch a' = valid ch a /\ last_rx ch a' = last_rx ch a
                 /\ resets ch a' = resets ch a)
  /\ (only_tx (_rx_q a) = true -> only_tx (_rx_q a') = true).

(** What a state reached through a history keeps true of it. *)
Definition consistent (evs : list event) (a : App) : Prop :=
  only_tx (_rx_q a) = true
  /\ (forall ch, valid ch a = true -> last_seen ch evs = Some (last_rx ch a))
  /\ (_ctrl_valid a = true ->
      exists t, last_snapshot evs = Some t /\ var_set (ctrl a) = str_int (tel_set t))
  /\ (_ctrl_valid a = false -> var_set (ctrl a) = "--")
  /\ _last_main_state a
     = (fun t => Spec.high_nibble (tel_state_raw t)) <$> last_snapshot evs.

(** The mode [on_set] is to choose after a history, in the claim's
    words: 0x00 when the Main state of the last snapshot is 2, 0x20
    otherwise and when there is no snapshot. *)
Definition mode_after (evs : list event) : Z :=
  match last_snapshot evs with
  | Some t => if Spec.high_nibble (tel_state_raw t) =? 2 then 0x00 else 0x20
  | None => 0x20
  end.

(** The liveness state of a channel after a history: [Valid] when the
    flag is set, otherwise [Stale] or [Unseen] by whether a snapshot
    ever arrived. *)
Definition liveness_of (ch : channel) (evs : list event) : Spec.liveness :=
  if valid ch (run init evs) then Spec.Valid
  else
    match last_seen ch evs with
    | Some _ => Spec.Stale
    | None => Spec.Unseen
    end.

End Session.

(* ================================================================== *)
(** ** Sample data for the worked instances *)
(* ================================================================== *)

Module Sample.
Import ACControllerApp Session.

(** 0.5, and clock readings around a snapshot taken at 1000.0 s. *)
Definition half : float := S754_finite false 4503599627370496 (-53).
Definition t1000 : float := S754_finite false 8796093022208000 (-43).
Definition t1009_9 : float := S754_finite false 8883174343127859 (-43).
Definition t1010_1 : float := S754_finite false 8884933561732301 (-43).
Definition t1015 : float := S754_finite false 8928034417541120 (-43).
Definition t1020 : float := S754_finite false 8972014882652160 (-43).

Definition value_field : field_tpl :=
  {| field := Some "value"; value := None; scale := None; bytes := None; endian := None |}.

Definition mode_field : field_tpl :=
  {| field := Some "mode"; value := None; scale := None; bytes := None; endian := None |}.

(** A configuration of the shape the header comment describes: the
    setpoint in the last byte, the mode of SET in byte 2. *)
Definition start_def : msg_def :=
  {| msg_id := Some 0x5E0001; extended := Some true; data := None;
     data_template := Some [TInt 1; TInt 0; TInt 0; TInt 0; TInt 0; TInt 0; TInt 0;
                            TDict value_field] |}.

Definition stop_def : msg_def :=
  {| msg_id := Some 0x5E0001; extended := Some true; data := None;
     data_template := Some [TInt 2; TInt 0; TInt 0; TInt 0; TInt 0; TInt 0; TInt 0;
                            TDict value_field] |}.

Definition set_def : msg_def :=
  {| msg_id := Some 0x5E0001; extended := Some true; data := None;
     data_template := Some [TInt 3; TDict mode_field; TInt 0; TInt 0; TInt 0; TInt 0;
                            TInt 0; TDict value_field] |}.

Definition config : CANConfig :=
  {| messages := <[ "START" := start_def ]> (<[ "STOP" := stop_def ]> {[ "SET" := set_def ]});
     telemetry_id := 0x5E0100; telemetry_ext := true;
     inverter_id := 0x5E0200; inverter_ext := true |}.

Definition client : CANClient.t := {| CANClient.cfg := config; CANClient.bus := true |}.

(** Frames: controller telemetry with state byte 0x23 and with 0xFF,
    a 7-byte inverter frame whose byte 6 is 0x13, and a foreign one. *)
Definition ctrl_frame : Message :=
  {| arbitration_id := 0x5E0100; is_extended_id := true;
     msg_data := [0; 22; 24; 30; 0; 0; 0x21; 0x23] |}.

Definition ctrl_frame_ff : Message :=
  {| arbitration_id := 0x5E0100; is_extended_id := true;
     msg_data := [0; 22; 24; 30; 0; 0; 0x00; 0xFF] |}.

Definition inv_frame : Message :=
  {| arbitration_id := 0x5E0200; is_extended_id := true;
     msg_data := [12; 48; 35; 0; 0; 0x02; 0x13] |}.

Definition foreign_frame : Message :=
  {| arbitration_id := 0x123; is_extended_id := false; msg_data := [1; 2; 255] |}.

Definition snapshot : telemetry_item :=
  {| tel_err := 0; tel_set := 22; tel_temp := 24; tel_cond := 30;
     tel_fan_raw := 0x21; tel_state_raw := 0x23;
     tel_raw := [0; 22; 24; 30; 0; 0; 0x21; 0x23] |}.

(** A template of eleven entries whose first six already emit 8
    bytes, and an entry of width 3. *)
Definition long_pre : list tpl_item :=
  [TInt 1; TInt 2; TInt 3; TInt 4; TInt 5;
   TDict {| field := Some "value"; value := None; scale := None;
            bytes := Some 4; endian := None |}].

Definition long_post : list tpl_item := [TInt 9; TInt 10; TInt 11; TInt 12; TInt 13].

Definition long_def : msg_def :=
  {| msg_id := Some 0x5E0001; extended := Some true; data := None;
     data_template := Some (long_pre ++ long_post) |}.

Definition wide_field : field_tpl :=
  {| field := Some "value"; value := None; scale := None; bytes := Some 3; endian := None |}.

Definition value_ctx (n : Z) : gmap string Py.value := {[ "value" := VInt n ]}.

(** A session: connected, one snapshot at 1000.0 s, then silence. *)
Definition heard : list event :=
  [Client (Some client); Tick t1000 "12:00:00" [Telemetry snapshot]].

Definition silent : list event :=
  heard ++ [Tick t1009_9 "12:00:09" []; Tick t1010_1 "12:00:10" [];
            Tick t1015 "12:00:15" []; Tick t1020 "12:00:20" []].

(** A literal message of three bytes, and a context with a stray key. *)
Definition literal3 : msg_def :=
  {| msg_id := Some 0x5E0002; extended := None; data := Some [1; 2; 3];
     data_template := None |}.

Definition stray_ctx : gmap string Py.value := <[ "junk" := VInt 1 ]> (value_ctx 22).

(** The speeds message, a client that knows it, and slider positions. *)
Definition speed_def : msg_def :=
  {| msg_id := Some 0x5E0003; extended := Some true; data := None;
     data_template :=
       Some [TDict {| field := Some "c1"; value := None; scale := None; bytes := None;
                      endian := None |};
             TDict {| field := Some "c2"; value := None; scale := None; bytes := None;
                      endian := None |};
             TDict {| field := Some "c3"; value := None; scale := None; bytes := None;
                      endian := None |};
             TDict {| field := Some "e1"; value := None; scale := None; bytes := None;
                      endian := None |};
             TDict {| field := Some "e2"; value := None; scale := None; bytes := None;
                      endian := None |};
             TDict {| field := Some "e3"; value := None; scale := None; bytes := None;
                      endian := None |}] |}.

Definition speed_client : CANClient.t :=
  {| CANClient.cfg :=
       {| messages := {[ "PARAMS_SPEED" := speed_def ]};
          telemetry_id := 0x5E0100; telemetry_ext := true;
          inverter_id := 0x5E0200; inverter_ext := true |};
     CANClient.bus := true |}.

Definition sliders : speed_conf :=
  {| c1 := 20; c2 := 50; c3 := 80; e1 := 25; e2 := 55; e3 := 100 |}.


(** An inverter event, and an earlier controller snapshot. *)
Definition inv_event : inv_item :=
  {| inv_cur := 12; inv_volt := 48; inv_temp := 35; inv_raw := [12; 48; 35];
     inv_err5 := None; inv_state6 := None; inv_state7 := None |}.

Definition older_snapshot : telemetry_item :=
  {| tel_err := 0; tel_set := 18; tel_temp := 24; tel_cond := 30;
     tel_fan_raw := 0x3F; tel_state_raw := 0x31; tel_raw := [] |}.

End Sample.

(* ================================================================== *)
(** ** Theorems: the frame encoder *)
(* ================================================================== *)

Section Encoder.
Import CANClient.
Variable ctx : gmap string Py.value.

Lemma pad_loop_spec (fuel : nat) (d : list Z) :
  pad_loop fuel d = d ++ replicate (Nat.min fuel (8 - length d)) 0.
Proof.
  revert d. induction fuel as [|fuel IH]; intros d; cbn [pad_loop].
  - simpl. by rewrite app_nil_r.
  - destruct (Nat.ltb_spec (length d) 8) as [Hlt|Hge].
    + rewrite IH, length_app. cbn [length].
      replace (Nat.min (S fuel) (8 - length d))%nat
        with (S (Nat.min fuel (8 - (length d + 1))))%nat by lia.
      rewrite <- app_assoc. reflexivity.
    + replace (8 - length d)%nat with 0%nat by lia.
      rewrite Nat.min_0_r. simpl. by rewrite app_nil_r.
Qed.

(** The padding loop ends by its own test within 8 turns. *)
Lemma pad_loop_8 (d : list Z) :
  pad_loop 8 d = d ++ replicate (8 - length d) 0.
Proof. rewrite pad_loop_spec. f_equal. f_equal. lia. Qed.

Lemma take_8_pad (d : list Z) :
  take 8 (take 8 d ++ replicate (8 - length (take 8 d)) 0) = take 8 (d ++ replicate 8 0).
Proof.
  destruct (Nat.le_gt_cases 8 (length d)) as [Hge|Hlt].
  - rewrite length_take, Nat.min_l by lia. simpl. rewrite app_nil_r.
    rewrite take_take, Nat.min_id. by rewrite take_app_le by lia.
  - rewrite (take_ge d) by lia.
    rewrite !take_app_ge by lia. f_equal.
    rewrite !take_replicate. f_equal. lia.
Qed.

Lemma tpl_loop_take (tpl : list tpl_item) (out : list Z) :
  take 8 (tpl_loop ctx tpl out) = take 8 (out ++ concat (map (item_bytes ctx) tpl)).
Proof.
  revert out. induction tpl as [|it tpl IH]; intros out; cbn [tpl_loop map concat].
  - by rewrite app_nil_r.
  - rewrite app_assoc.
    destruct it as [n|item]; cbn [item_bytes].
    + by rewrite IH.
    + destruct (field item) as [key|]; [|by rewrite IH].
      destruct (Nat.leb_spec 8 (length (out ++ field_bytes ctx key item))) as [Hge|Hlt].
      * by rewrite (take_app_le (out ++ field_bytes ctx key item) _ 8) by lia.
      * by rewrite IH.
Qed.

Lemma build_data_eq (md : msg_def) :
  _build_data md ctx =
    take 8 (match data md with
            | Some xs => map (fun x => Z.land x 0xFF) xs
            | None => concat (map (item_bytes ctx) (default [] (data_template md)))
            end ++ replicate 8 0).
Proof.
  unfold _build_data. rewrite pad_loop_8.
  destruct (data md) as [xs|].
  - apply take_8_pad.
  - rewrite <- (take_8_pad (concat _)).
    by rewrite tpl_loop_take.
Qed.

(** C1. Whatever the message definition (a literal [data] list or a
    [data_template], of any length) and the context, [_build_data]
    returns exactly 8 bytes: the first 8 of what the definition emits,
    followed by zeros when it emits fewer; once a run of leading
    templates has produced 8 bytes, the templates after them change
    nothing. *)
Theorem build_data_exactly_8 (md : msg_def) :
  length (_build_data md ctx) = 8%nat
  /\ _build_data md ctx =
       take 8 (match data md with
               | Some xs => map (fun x => Z.land x 0xFF) xs
               | None => concat (map (item_bytes ctx) (default [] (data_template md)))
               end ++ replicate 8 0)
  /\ (forall pre post : list tpl_item,
        data md = None -> data_template md = Some (pre ++ post) ->
        (8 <= length (concat (map (item_bytes ctx) pre)))%nat ->
        _build_data md ctx = take 8 (concat (map (item_bytes ctx) pre))).
Proof.
  split; [|split].
  - rewrite build_data_eq. rewrite length_take, length_app, length_replicate. lia.
  - apply build_data_eq.
  - intros pre post Hd Ht Hlen. rewrite build_data_eq, Hd, Ht. simpl.
    rewrite map_app, concat_app, <- app_assoc.
    by rewrite take_app_le by lia.
Qed.

(** C9. For every number the little-endian and the big-endian
    encodings of width 2, and of width 4, are each other's reverse:
    little-endian emits the bytes in ascending significance, big-endian
    the reversed sequence. The tag is compared after [lower()], so
    ["LE"] and ["BE"] read the same. *)
Theorem endian_mirror (num : Z) (key : string) (sc : option float) :
  serialize num 2 "le" = [Z.land num 0xFF; Z.land (Z.shiftr num 8) 0xFF]
  /\ serialize num 4 "le" =
       [Z.land num 0xFF; Z.land (Z.shiftr num 8) 0xFF;
        Z.land (Z.shiftr num 16) 0xFF; Z.land (Z.shiftr num 24) 0xFF]
  /\ serialize num 2 "be" = rev (serialize num 2 "le")
  /\ serialize num 4 "be" = rev (serialize num 4 "le")
  /\ (forall w le be, (w = 2 \/ w = 4) ->
        lower le = "le" -> lower be = "be" ->
        field_bytes ctx key {| field := Some key; value := None; scale := sc;
                               bytes := Some w; endian := Some be |}
        = rev (field_bytes ctx key {| field := Some key; value := None; scale := sc;
                                      bytes := Some w; endian := Some le |})).
Proof.
  repeat split; try reflexivity.
  intros w le be Hw Hle Hbe. unfold field_bytes. simpl.
  rewrite Hle, Hbe. destruct Hw as [-> | ->]; reflexivity.
Qed.

(** C10. A templated field whose byte width is an integer other than
    1, 2 and 4 is encoded without failing as exactly one byte, the low 8
    bits of its scaled and rounded value: what width 1 gives. *)
Theorem other_width_one_byte (key : string) (item : field_tpl) (w : Z) :
  field item = Some key -> bytes item = Some w ->
  w <> 1 -> w <> 2 -> w <> 4 ->
  item_bytes ctx (TDict item)
    = [Z.land (field_num ctx key (default one (scale item))) 0xFF]
  /\ item_bytes ctx (TDict item)
     = item_bytes ctx (TDict {| field := field item; value := value item;
                                scale := scale item; bytes := Some 1;
                                endian := endian item |}).
Proof.
  intros Hf Hb H1 H2 H4. unfold item_bytes, field_bytes. simpl.
  rewrite Hf, Hb. simpl. unfold serialize.
  destruct (Z.eqb_spec w 1) as [?|_]; [contradiction|].
  destruct (Z.eqb_spec w 2) as [?|_]; [contradiction|].
  destruct (Z.eqb_spec w 4) as [?|_]; [contradiction|].
  split; reflexivity.
Qed.

End Encoder.

(* ================================================================== *)
(** ** Theorems: the rounding of scaled values *)
(* ================================================================== *)

Section Rounding.
Import CANClient Spec.

Lemma round_half_even_pos_nearest (p q : Z) :
  0 <= p -> 0 < q -> nearest_ties_even p q (round_half_even_pos p q).
Proof.
  intros Hp Hq. unfold nearest_ties_even, round_half_even_pos.
  pose proof (Z.div_mod p q ltac:(lia)) as Hdm.
  pose proof (Z.mod_pos_bound p q Hq) as Hr.
  set (n := p / q) in *. set (r := p mod q) in *.
  destruct (Z.compare_spec (2 * r) q) as [Heq|Hlt|Hgt].
  - destruct (Z.even n) eqn:He.
    + split; [|intros _; exact He]. nia.
    + split; [nia|]. intros _.
      rewrite Z.even_add, He. reflexivity.
  - split; [nia|]. intros Htie. exfalso. nia.
  - split; [nia|]. intros Htie. exfalso. nia.
Qed.

Lemma nearest_ties_even_opp (p q n : Z) :
  nearest_ties_even p q n -> nearest_ties_even (- p) q (- n).
Proof.
  unfold nearest_ties_even. intros [H1 H2].
  replace (- n * q - - p) with (- (n * q - p)) by ring.
  rewrite Z.abs_opp, Z.even_opp. auto.
Qed.

Lemma nearest_ties_even_unique (p q n n' : Z) :
  0 < q -> nearest_ties_even p q n -> nearest_ties_even p q n' -> n = n'.
Proof.
  unfold nearest_ties_even. intros Hq [H1 H2] [H1' H2'].
  assert (n' = n \/ n' = n + 1 \/ n' = n - 1) as [-> | [-> | ->]] by nia; [reflexivity| |].
  - assert (Z.even n = true) as He by (apply H2; nia).
    assert (Z.even (n + 1) = true) as He' by (apply H2'; nia).
    rewrite Z.even_add, He in He'. discriminate.
  - assert (Z.even n = true) as He by (apply H2; nia).
    assert (Z.even (n - 1) = true) as He' by (apply H2'; nia).
    rewrite Z.even_sub, He in He'. discriminate.
Qed.

Lemma fraction_pos (x : float) (p q : Z) : fraction x = Some (p, q) -> 0 < q.
Proof.
  destruct x as [s|s| |s m e]; simpl; try discriminate.
  - intros [= <- <-]. lia.
  - destruct (Z.leb_spec 0 e); intros [= <- <-]; [lia|].
    apply Z.pow_pos_nonneg; lia.
Qed.

(** [int(round(x))] of a finite float is its exact value rounded to the
    nearest integer, ties to even. *)
Lemma round_int_nearest (x : float) (p q : Z) :
  fraction x = Some (p, q) ->
  exists n, round_int x = Some n /\ nearest_ties_even p q n.
Proof.
  destruct x as [s|s| |s m e]; simpl; try discriminate.
  - intros [= <- <-]. exists 0. split; [reflexivity|].
    unfold nearest_ties_even. simpl. split; [lia|discriminate].
  - destruct (Z.leb_spec 0 e) as [He|He]; intros [= <- <-]; eexists; (split; [reflexivity|]).
    + unfold nearest_ties_even. rewrite Z.mul_1_r, Z.sub_diag. simpl.
      split; [lia|discriminate].
    + assert (0 < 2 ^ (- e)) as Hq by (apply Z.pow_pos_nonneg; lia).
      pose proof (round_half_even_pos_nearest (Z.pos m) (2 ^ (- e)) ltac:(lia) Hq) as Hn.
      destruct s; simpl; [|exact Hn].
      apply nearest_ties_even_opp in Hn. exact Hn.
Qed.

Lemma field_num_absent (ctx : gmap string Py.value) (key : string) (sc : float) :
  ctx !! key = None -> field_num ctx key sc = 0.
Proof.
  intros Hk. unfold field_num. rewrite Hk. simpl.
  destruct sc as [s|s| |s m e]; reflexivity.
Qed.

(** C8 (as amended). For every templated field the encoder takes the
    value from the context by key (0 when the key is absent, which makes
    the number 0), converts it to a float, multiplies it by the scale
    factor, and rounds the finite product to the nearest integer with
    ties going to the even neighbour: the one integer with that
    property. *)
Theorem field_num_round_half_even (ctx : gmap string Py.value) (key : string) (sc : float) :
  (ctx !! key = None ->
     field_num ctx key sc = field_num (<[ key := VInt 0 ]> ctx) key sc
     /\ field_num ctx key sc = 0)
  /\ (forall x p q,
        to_float (default (VInt 0) (ctx !! key)) = Some x ->
        fraction (fmul x sc) = Some (p, q) ->
        nearest_ties_even p q (field_num ctx key sc)
        /\ (forall n, nearest_ties_even p q n -> n = field_num ctx key sc)).
Proof.
  split.
  - intros Hk. split; [|by apply field_num_absent].
    unfold field_num. by rewrite Hk, lookup_insert_eq.
  - intros x p q Hx Hf. unfold field_num. rewrite Hx.
    destruct (round_int_nearest _ _ _ Hf) as (n & -> & Hn).
    split; [exact Hn|].
    intros n' Hn'. eapply nearest_ties_even_unique; eauto using fraction_pos.
Qed.

End Rounding.

(* ================================================================== *)
(** ** Theorems: dispatch of received frames *)
(* ================================================================== *)

Section Dispatch.
Import CANClient Spec.
Variable c : CANConfig.

Lemma matches_test (id : Z) (ext : bool) (k : Z) (msg : Message) :
  (arbitration_id msg =? id) && Bool.eqb (is_extended_id msg) ext
    && (k <=? Z.of_nat (length (msg_data msg))) = true
  <-> matches id ext k msg.
Proof.
  unfold matches.
  rewrite !andb_true_iff, Z.eqb_eq, Bool.eqb_true_iff, Z.leb_le. tauto.
Qed.

Lemma matches_test_false (id : Z) (ext : bool) (k : Z) (msg : Message) :
  ~ matches id ext k msg ->
  (arbitration_id msg =? id) && Bool.eqb (is_extended_id msg) ext
    && (k <=? Z.of_nat (length (msg_data msg))) = false.
Proof.
  intros H. apply not_true_is_false. by rewrite matches_test.
Qed.

Lemma matches_dec (id : Z) (ext : bool) (k : Z) (msg : Message) :
  matches id ext k msg \/ ~ matches id ext k msg.
Proof.
  rewrite <- matches_test.
  destruct ((arbitration_id msg =? id) && Bool.eqb (is_extended_id msg) ext
            && (k <=? Z.of_nat (length (msg_data msg)))); [left|right]; congruence.
Qed.

(** An optional key is the list lookup itself: present exactly when the
    payload is long enough. *)
Lemma optional_byte (d : list Z) (k : nat) (z : Z) :
  z = Z.of_nat (S k) ->
  (if z <=? Z.of_nat (length d) then Some <$> d !! k else Some None) = Some (d !! k).
Proof.
  intros ->.
  destruct (Z.leb_spec (Z.of_nat (S k)) (Z.of_nat (length d))) as [Hle|Hgt].
  - destruct (lookup_lt_is_Some_2 d k ltac:(lia)) as [x ->]. reflexivity.
  - by rewrite lookup_ge_None_2 by lia.
Qed.

Lemma present_iff (d : list Z) (k : nat) :
  is_Some (d !! k) <-> Z.of_nat (S k) <= Z.of_nat (length d).
Proof. rewrite lookup_lt_is_Some. lia. Qed.

Lemma rx_try_controller (msg : Message) :
  controller_signature c msg ->
  exists d0 d1 d2 d3 d6 d7,
    msg_data msg !! 0%nat = Some d0 /\ msg_data msg !! 1%nat = Some d1
    /\ msg_data msg !! 2%nat = Some d2 /\ msg_data msg !! 3%nat = Some d3
    /\ msg_data msg !! 6%nat = Some d6 /\ msg_data msg !! 7%nat = Some d7
    /\ rx_try c msg =
         Some [Telemetry {| tel_err := d0; tel_set := d1; tel_temp := d2; tel_cond := d3;
                            tel_fan_raw := d6; tel_state_raw := d7;
                            tel_raw := msg_data msg |};
               Text (telem_line d0 d1 d2 d3 d6 d7)].
Proof.
  intros Hm. unfold rx_try.
  rewrite (proj2 (matches_test _ _ _ _) Hm).
  destruct Hm as (_ & _ & Hlen).
  destruct (msg_data msg) as [|d0 [|d1 [|d2 [|d3 [|d4 [|d5 [|d6 [|d7 rest]]]]]]]];
    simpl in Hlen; try lia.
  exists d0, d1, d2, d3, d6, d7. repeat split; reflexivity.
Qed.

Lemma rx_try_inverter (msg : Message) :
  ~ controller_signature c msg -> inverter_signature c msg ->
  exists d0 d1 d2,
    msg_data msg !! 0%nat = Some d0 /\ msg_data msg !! 1%nat = Some d1
    /\ msg_data msg !! 2%nat = Some d2
    /\ rx_try c msg =
         Some [Inv {| inv_cur := d0; inv_volt := d1; inv_temp := d2;
                      inv_raw := msg_data msg;
                      inv_err5 := msg_data msg !! 5%nat;
                      inv_state6 := msg_data msg !! 6%nat;
                      inv_state7 := msg_data msg !! 7%nat |};
               Text (inv_line d0 d1 d2 (msg_data msg !! 5%nat) (msg_data msg !! 6%nat)
                       (msg_data msg !! 7%nat))].
Proof.
  intros Hc Hm. unfold rx_try.
  rewrite (matches_test_false _ _ _ _ Hc).
  rewrite (proj2 (matches_test _ _ _ _) Hm).
  destruct Hm as (_ & _ & Hlen).
  rewrite (optional_byte (msg_data msg) 5 6 eq_refl),
    (optional_byte (msg_data msg) 6 7 eq_refl),
    (optional_byte (msg_data msg) 7 8 eq_refl).
  rewrite (take_ge (msg_data msg)) by lia.
  destruct (msg_data msg) as [|d0 [|d1 [|d2 rest]]]; simpl in Hlen; try lia.
  exists d0, d1, d2. repeat split; reflexivity.
Qed.

Lemma rx_try_unmatched (msg : Message) :
  ~ controller_signature c msg -> ~ inverter_signature c msg ->
  rx_try c msg =
    Some [Text (not_matched_line c (arbitration_id msg) (is_extended_id msg)
                  (Z.of_nat (length (msg_data msg))));
          Text (can_rx_line (arbitration_id msg) (msg_data msg))].
Proof.
  intros Hc Hi. unfold rx_try.
  rewrite (matches_test_false _ _ _ _ Hc), (matches_test_false _ _ _ _ Hi).
  reflexivity.
Qed.

(** C2. Every received frame is first compared with the controller
    signature (exact id, exact extended flag, at least 8 bytes): on a
    match the reader queues a controller event made of bytes 0, 1, 2, 3,
    6 and 7. Otherwise it is compared with the inverter signature (exact
    id, exact flag, at least 3 bytes): on a match the reader queues an
    inverter event with bytes 0 to 2 and with the error byte, the Sub
    byte and the Main byte present exactly when the length reaches 6, 7
    and 8. Otherwise it queues the two diagnostic lines that carry the
    raw id, flag, length and bytes. No case raises: the error line of
    the [except] clause is never queued. *)
Theorem dispatch_by_signature (ts : string) (msg : Message) :
  rx_try c msg <> None
  /\ (controller_signature c msg ->
      exists d0 d1 d2 d3 d6 d7,
        msg_data msg !! 0%nat = Some d0 /\ msg_data msg !! 1%nat = Some d1
        /\ msg_data msg !! 2%nat = Some d2 /\ msg_data msg !! 3%nat = Some d3
        /\ msg_data msg !! 6%nat = Some d6 /\ msg_data msg !! 7%nat = Some d7
        /\ rx_step c ts msg =
             [_dbg ts (rx_line msg);
              Telemetry {| tel_err := d0; tel_set := d1; tel_temp := d2; tel_cond := d3;
                           tel_fan_raw := d6; tel_state_raw := d7;
                           tel_raw := msg_data msg |};
              Text (telem_line d0 d1 d2 d3 d6 d7)])
  /\ (~ controller_signature c msg -> inverter_signature c msg ->
      exists d0 d1 d2 i,
        msg_data msg !! 0%nat = Some d0 /\ msg_data msg !! 1%nat = Some d1
        /\ msg_data msg !! 2%nat = Some d2
        /\ i = {| inv_cur := d0; inv_volt := d1; inv_temp := d2;
                  inv_raw := msg_data msg;
                  inv_err5 := msg_data msg !! 5%nat;
                  inv_state6 := msg_data msg !! 6%nat;
                  inv_state7 := msg_data msg !! 7%nat |}
        /\ rx_step c ts msg =
             [_dbg ts (rx_line msg); Inv i;
              Text (inv_line d0 d1 d2 (inv_err5 i) (inv_state6 i) (inv_state7 i))]
        /\ (is_Some (inv_err5 i) <-> 6 <= Z.of_nat (length (msg_data msg)))
        /\ (is_Some (inv_state6 i) <-> 7 <= Z.of_nat (length (msg_data msg)))
        /\ (is_Some (inv_state7 i) <-> 8 <= Z.of_nat (length (msg_data msg))))
  /\ (~ controller_signature c msg -> ~ inverter_signature c msg ->
      rx_step c ts msg =
        [_dbg ts (rx_line msg);
         Text (not_matched_line c (arbitration_id msg) (is_extended_id msg)
                 (Z.of_nat (length (msg_data msg))));
         Text (can_rx_line (arbitration_id msg) (msg_data msg))]).
Proof.
  split; [|split; [|split]].
  - destruct (matches_dec (telemetry_id c) (telemetry_ext c) 8 msg) as [Hc|Hc].
    + destruct (rx_try_controller msg Hc) as (?&?&?&?&?&?&_&_&_&_&_&_&->). discriminate.
    + destruct (matches_dec (inverter_id c) (inverter_ext c) 3 msg) as [Hi|Hi].
      * destruct (rx_try_inverter msg Hc Hi) as (?&?&?&_&_&_&->). discriminate.
      * rewrite (rx_try_unmatched msg Hc Hi). discriminate.
  - intros Hc.
    destruct (rx_try_controller msg Hc) as (d0&d1&d2&d3&d6&d7&H0&H1&H2&H3&H6&H7&Hr).
    exists d0, d1, d2, d3, d6, d7. unfold rx_step. rewrite Hr. auto 10.
  - intros Hc Hi.
    destruct (rx_try_inverter msg Hc Hi) as (d0&d1&d2&H0&H1&H2&Hr).
    exists d0, d1, d2. eexists. split; [exact H0|]. split; [exact H1|]. split; [exact H2|].
    split; [reflexivity|]. unfold rx_step. rewrite Hr. simpl.
    split; [reflexivity|].
    split; [|split]; apply present_iff.
  - intros Hc Hi. unfold rx_step. by rewrite (rx_try_unmatched msg Hc Hi).
Qed.

End Dispatch.

(* ================================================================== *)
(** ** Lemmas on the built-ins *)
(* ================================================================== *)

Section Builtins.

Lemma lstrip_no_space (s : string) : no_space s = true -> lstrip s = s.
Proof.
  destruct s as [|c s]; simpl; [reflexivity|].
  intros [Hc _]%andb_true_iff. by destruct (is_space c).
Qed.

Lemma rstrip_no_space (s : string) : no_space s = true -> rstrip s = s.
Proof.
  induction s as [|c s IH]; simpl; [reflexivity|].
  intros [Hc Hs]%andb_true_iff. rewrite (IH Hs).
  destruct s; [|reflexivity]. by destruct (is_space c).
Qed.

Lemma strip_no_space (s : string) : no_space s = true -> strip s = s.
Proof.
  intros H. unfold strip. rewrite (lstrip_no_space s H). by apply rstrip_no_space.
Qed.

Lemma no_space_uint (d : Decimal.uint) :
  no_space (DecimalString.NilEmpty.string_of_uint d) = true.
Proof. induction d; simpl; auto. Qed.

Lemma no_space_str_int (z : Z) : no_space (str_int z) = true.
Proof.
  unfold str_int. destruct (Z.to_int z) as [d|d]; simpl.
  - destruct d; try reflexivity; apply (no_space_uint (_ _)).
  - destruct d; try reflexivity; apply (no_space_uint (_ _)).
Qed.

(** [int(str(n).strip()) == n]. *)
Lemma int_of_str_int (z : Z) : int_of_str (strip (str_int z)) = Some z.
Proof.
  rewrite strip_no_space by apply no_space_str_int.
  unfold int_of_str, str_int.
  rewrite DecimalString.NilZero.isi.
  - simpl. by rewrite DecimalZ.of_to.
  - destruct z as [|p|p]; simpl; try discriminate.
    intros [= H]. by destruct (DecimalPos.Unsigned.to_uint_nonnil p).
  - destruct z as [|p|p]; simpl; try discriminate.
    intros [= H]. by destruct (DecimalPos.Unsigned.to_uint_nonnil p).
Qed.

(** A check in the period of an arrival never sees the timeout:
    [now - now > 10.0] is false for every float, NaN and the infinities
    included. *)
Lemma not_timed_out_now (now : float) :
  fgt (fsub now now) ACControllerApp.TIMEOUT_S = false.
Proof.
  destruct now as [s|s| |s m e]; [by destruct s | by destruct s | reflexivity |].
  unfold fsub, SFsub. rewrite Z.sub_diag. reflexivity.
Qed.

End Builtins.

(* ================================================================== *)
(** ** Lemmas on [_poll] *)
(* ================================================================== *)

Section Poll.
Import ACControllerApp Session Spec.

(** What one queue item does to the fields the claims read. *)
Lemma on_item_frame (now : float) (ts : string) (a : App) (i : rx_item) :
  trace (on_item now ts a i) = trace a
  /\ _rx_q (on_item now ts a i) = _rx_q a
  /\ _client (on_item now ts a i) = _client a
  /\ var_set_input (on_item now ts a i) = var_set_input a.
Proof.
  destruct i as [t|i|t|s]; simpl; auto.
  - unfold on_telemetry. destruct (tel_raw t); auto.
  - unfold on_inv. destruct (inv_raw i); auto.
Qed.

Lemma on_item_valid (ch : channel) (now : float) (ts : string) (a : App) (i : rx_item) :
  valid ch (on_item now ts a i) = is_snapshot ch i || valid ch a
  /\ last_rx ch (on_item now ts a i) = if is_snapshot ch i then now else last_rx ch a.
Proof.
  destruct i as [t|i|t|s], ch; simpl; auto;
    try (unfold on_telemetry; destruct (tel_raw t); auto);
    try (unfold on_inv; destruct (inv_raw i); auto).
Qed.

Lemma on_item_ctrl (now : float) (ts : string) (a : App) (i : rx_item) :
  var_set (ctrl (on_item now ts a i))
    = match i with Telemetry t => str_int (tel_set t) | _ => var_set (ctrl a) end
  /\ _last_main_state (on_item now ts a i)
     = match i with
       | Telemetry t => Some (high_nibble (tel_state_raw t))
       | _ => _last_main_state a
       end.
Proof.
  destruct i as [t|i|t|s]; simpl; auto.
  - unfold on_telemetry. destruct (tel_raw t); auto.
  - unfold on_inv. destruct (inv_raw i); auto.
Qed.

Lemma last_telemetry_acc (items : list rx_item) (acc : option telemetry_item) :
  last_telemetry items acc
    = match last_telemetry items None with Some t => Some t | None => acc end.
Proof.
  revert acc. induction items as [|i items IH]; intros acc; [reflexivity|].
  unfold last_telemetry in *. simpl.
  rewrite (IH (match i with Telemetry t => Some t | _ => acc end)).
  rewrite (IH (match i with Telemetry t => Some t | _ => None end)).
  destruct (fold_left _ items None); [reflexivity|]. by destruct i.
Qed.

(** The queue drained: the fields after the [while True] loop. *)
Lemma drain_frame (now : float) (ts : string) (items : list rx_item) (a : App) :
  let a' := fold_left (on_item now ts) items a in
  trace a' = trace a /\ _rx_q a' = _rx_q a /\ _client a' = _client a
  /\ var_set_input a' = var_set_input a.
Proof.
  revert a. induction items as [|i items IH]; intros a; simpl; [auto|].
  destruct (IH (on_item now ts a i)) as (-> & -> & -> & ->).
  apply on_item_frame.
Qed.

Lemma drain_valid (ch : channel) (now : float) (ts : string)
      (items : list rx_item) (a : App) :
  let a' := fold_left (on_item now ts) items a in
  valid ch a' = has_snapshot ch items || valid ch a
  /\ last_rx ch a' = if has_snapshot ch items then now else last_rx ch a.
Proof.
  revert a. induction items as [|i items IH]; intros a; simpl; [auto|].
  destruct (IH (on_item now ts a i)) as (-> & ->).
  destruct (on_item_valid ch now ts a i) as (-> & ->).
  unfold has_snapshot.
  destruct (is_snapshot ch i), (existsb (is_snapshot ch) items); auto.
Qed.

Lemma drain_ctrl (now : float) (ts : string) (items : list rx_item) (a : App) :
  let a' := fold_left (on_item now ts) items a in
  var_set (ctrl a')
    = match last_telemetry items None with
      | Some t => str_int (tel_set t)
      | None => var_set (ctrl a)
      end
  /\ _last_main_state a'
     = match last_telemetry items None with
       | Some t => Some (high_nibble (tel_state_raw t))
       | None => _last_main_state a
       end.
Proof.
  revert a. induction items as [|i items IH]; intros a; simpl; [auto|].
  destruct (IH (on_item now ts a i)) as (-> & ->).
  destruct (on_item_ctrl now ts a i) as (-> & ->).
  change (fold_left _ items ?acc) with (last_telemetry items acc).
  rewrite (last_telemetry_acc items (match i with Telemetry t => Some t | _ => None end)).
  destruct (last_telemetry items None); [auto|]. by destruct i.
Qed.

Lemma has_snapshot_last_telemetry (items : list rx_item) :
  has_snapshot Controller items = true <-> is_Some (last_telemetry items None).
Proof.
  induction items as [|i items IH]; simpl.
  - split; [discriminate|]. by intros [? [=]].
  - unfold last_telemetry in *. simpl.
    change (fold_left _ items ?acc) with (last_telemetry items acc).
    rewrite (last_telemetry_acc items (match i with Telemetry t => Some t | _ => None end)).
    unfold last_telemetry.
    destruct (fold_left _ items None) as [t|] eqn:E.
    + rewrite orb_true_iff. split; [eauto|]. intros _. right. apply IH. eauto.
    + destruct i; simpl; rewrite ?IH; try (split; [|eauto]; eauto);
        split; intros [? [=]].
Qed.

Lemma resets_app (ch : channel) (a a' : App) (es : list effect) :
  trace a' = trace a ++ es ->
  resets ch a' = (resets ch a + length (filter (fun e => is_reset ch e = true) es))%nat.
Proof. intros H. unfold resets. by rewrite H, filter_app, length_app. Qed.

(** The controller timeout test. *)
Lemma ctrl_timeout_spec (now : float) (ts : string) (a : App) :
  let fire := _ctrl_valid a && fgt (fsub now (_last_ctrl_rx a)) TIMEOUT_S in
  let a' := ctrl_timeout now ts a in
  _ctrl_valid a' = _ctrl_valid a && negb fire
  /\ _last_ctrl_rx a' = _last_ctrl_rx a
  /\ trace a' = trace a ++ (if fire then [ResetCtrlDisplay] else [])
  /\ var_set (ctrl a') = (if fire then "--" else var_set (ctrl a))
  /\ _inv_valid a' = _inv_valid a /\ _last_inv_rx a' = _last_inv_rx a
  /\ _last_main_state a' = _last_main_state a
  /\ _rx_q a' = _rx_q a /\ _client a' = _client a
  /\ var_set_input a' = var_set_input a.
Proof.
  unfold ctrl_timeout.
  destruct (_ctrl_valid a && fgt (fsub now (_last_ctrl_rx a)) TIMEOUT_S) eqn:E; simpl.
  - repeat split; try reflexivity. symmetry. apply andb_false_r.
  - rewrite app_nil_r, andb_true_r. repeat split; reflexivity.
Qed.

(** The inverter timeout test. *)
Lemma inv_timeout_spec (now : float) (ts : string) (a : App) :
  let fire := _inv_valid a && fgt (fsub now (_last_inv_rx a)) TIMEOUT_S in
  let a' := inv_timeout now ts a in
  _inv_valid a' = _inv_valid a && negb fire
  /\ _last_inv_rx a' = _last_inv_rx a
  /\ trace a' = trace a ++ (if fire then [ResetInvDisplay] else [])
  /\ ctrl a' = ctrl a
  /\ _ctrl_valid a' = _ctrl_valid a /\ _last_ctrl_rx a' = _last_ctrl_rx a
  /\ _last_main_state a' = _last_main_state a
  /\ _rx_q a' = _rx_q a /\ _client a' = _client a
  /\ var_set_input a' = var_set_input a.
Proof.
  unfold inv_timeout.
  destruct (_inv_valid a && fgt (fsub now (_last_inv_rx a)) TIMEOUT_S) eqn:E; simpl.
  - repeat split; try reflexivity. symmetry. apply andb_false_r.
  - rewrite app_nil_r, andb_true_r. repeat split; reflexivity.
Qed.

Lemma fires_snapshot (ch : channel) (now : float) (a : App) :
  has_snapshot ch (_rx_q a) = true -> fires ch now a = false.
Proof.
  intros H. unfold fires. rewrite H, not_timed_out_now. apply andb_false_r.
Qed.

(** [_poll] on one channel. *)
Lemma poll_channel (ch : channel) (now : float) (ts : string) (a : App) :
  let a' := _poll now ts a in
  valid ch a' = (has_snapshot ch (_rx_q a) || valid ch a) && negb (fires ch now a)
  /\ last_rx ch a' = (if has_snapshot ch (_rx_q a) then now else last_rx ch a)
  /\ resets ch a' = (resets ch a + if fires ch now a then 1 else 0)%nat.
Proof.
  unfold _poll, fires.
  pose proof (drain_frame now ts (_rx_q a) (set_rx_q [] a)) as (Ht & _).
  pose proof (drain_valid Controller now ts (_rx_q a) (set_rx_q [] a)) as (Hcv & Hcl).
  pose proof (drain_valid Inverter now ts (_rx_q a) (set_rx_q [] a)) as (Hiv & Hil).
  set (a1 := fold_left (on_item now ts) (_rx_q a) (set_rx_q [] a)) in *.
  pose proof (ctrl_timeout_spec now ts a1) as (Hc1 & Hc2 & Hc3 & _ & Hc5 & Hc6 & _).
  set (a2 := ctrl_timeout now ts a1) in *.
  pose proof (inv_timeout_spec now ts a2) as (Hi1 & Hi2 & Hi3 & _ & Hi5 & Hi6 & _).
  set (a3 := inv_timeout now ts a2) in *.
  simpl in Hcv, Hcl, Hiv, Hil, Ht.
  assert (trace a3 = trace a
            ++ ((if _ctrl_valid a1 && fgt (fsub now (_last_ctrl_rx a1)) TIMEOUT_S
                 then [ResetCtrlDisplay] else [])
                ++ (if _inv_valid a2 && fgt (fsub now (_last_inv_rx a2)) TIMEOUT_S
                    then [ResetInvDisplay] else []))) as Htr.
  { rewrite Hi3, Hc3, Ht. by rewrite <- app_assoc. }
  rewrite (resets_app ch a a3 _ Htr).
  destruct ch; simpl.
  - rewrite Hi5, Hc1, Hi6, Hc2, Hcv, Hcl. repeat split.
    destruct ((has_snapshot Controller (_rx_q a) || _ctrl_valid a)
              && fgt (fsub now (if has_snapshot Controller (_rx_q a)
                                then now else _last_ctrl_rx a)) TIMEOUT_S);
      destruct (_inv_valid a2 && fgt (fsub now (_last_inv_rx a2)) TIMEOUT_S);
      reflexivity.
  - rewrite Hi1, Hi2, Hc5, Hc6, Hiv, Hil. repeat split.
    destruct ((has_snapshot Inverter (_rx_q a) || _inv_valid a)
              && fgt (fsub now (if has_snapshot Inverter (_rx_q a)
                                then now else _last_inv_rx a)) TIMEOUT_S);
      destruct (_ctrl_valid a1 && fgt (fsub now (_last_ctrl_rx a1)) TIMEOUT_S);
      reflexivity.
Qed.

(** [_poll] on the displayed setpoint and the remembered Main state. *)
Lemma poll_ctrl (now : float) (ts : string) (a : App) :
  let a' := _poll now ts a in
  var_set (ctrl a')
    = (if fires Controller now a then "--"
       else match last_telemetry (_rx_q a) None with
            | Some t => str_int (tel_set t)
            | None => var_set (ctrl a)
            end)
  /\ _last_main_state a'
     = match last_telemetry (_rx_q a) None with
       | Some t => Some (high_nibble (tel_state_raw t))
       | None => _last_main_state a
       end
  /\ _rx_q a' = [] /\ _client a' = _client a /\ var_set_input a' = var_set_input a.
Proof.
  unfold _poll, fires.
  pose proof (drain_frame now ts (_rx_q a) (set_rx_q [] a)) as (_ & Hq & Hcl & Hsi).
  pose proof (drain_valid Controller now ts (_rx_q a) (set_rx_q [] a)) as (Hcv & Hcl').
  pose proof (drain_ctrl now ts (_rx_q a) (set_rx_q [] a)) as (Hs & Hm).
  set (a1 := fold_left (on_item now ts) (_rx_q a) (set_rx_q [] a)) in *.
  pose proof (ctrl_timeout_spec now ts a1)
    as (_ & _ & _ & Hc4 & _ & _ & Hc7 & Hc8 & Hc9 & Hc10).
  set (a2 := ctrl_timeout now ts a1) in *.
  pose proof (inv_timeout_spec now ts a2)
    as (_ & _ & _ & Hi4 & _ & _ & Hi7 & Hi8 & Hi9 & Hi10).
  simpl in *.
  rewrite Hi4, Hc4, Hi7, Hc7, Hi8, Hc8, Hi9, Hc9, Hi10, Hc10, Hs, Hm, Hq, Hcl, Hsi, Hcv, Hcl'.
  auto.
Qed.

End Poll.

(* ================================================================== *)
(** ** Lemmas on sessions *)
(* ================================================================== *)

Section Run.
Import ACControllerApp Session Spec.

Lemma only_tx_no_snapshot (ch : channel) (q : list rx_item) :
  only_tx q = true -> has_snapshot ch q = false.
Proof.
  induction q as [|i q IH]; simpl; [reflexivity|].
  intros [Hi Hq]%andb_true_iff. rewrite (IH Hq).
  destruct i, ch; try discriminate; reflexivity.
Qed.

Lemma only_tx_last_telemetry (q : list rx_item) (acc : option telemetry_item) :
  only_tx q = true -> last_telemetry q acc = acc.
Proof.
  revert acc. induction q as [|i q IH]; intros acc; simpl; [reflexivity|].
  intros [Hi Hq]%andb_true_iff. unfold last_telemetry in *. simpl.
  rewrite (IH _ Hq). destruct i; try discriminate; reflexivity.
Qed.

Lemma has_snapshot_queue (ch : channel) (q items : list rx_item) :
  only_tx q = true -> has_snapshot ch (q ++ items) = has_snapshot ch items.
Proof.
  intros Hq. unfold has_snapshot. rewrite existsb_app.
  fold (has_snapshot ch q). by rewrite (only_tx_no_snapshot ch q Hq).
Qed.

Lemma last_telemetry_queue (q items : list rx_item) (acc : option telemetry_item) :
  only_tx q = true -> last_telemetry (q ++ items) acc = last_telemetry items acc.
Proof.
  intros Hq. unfold last_telemetry. rewrite fold_left_app.
  fold (last_telemetry q acc). by rewrite (only_tx_last_telemetry q acc Hq).
Qed.

Lemma same_view_refl (a : App) : same_view a a.
Proof. unfold same_view. auto 10. Qed.

Lemma same_view_emit (a : App) (e : effect) :
  (forall ch, is_reset ch e = false) -> same_view a (emit e a).
Proof.
  intros He. unfold same_view. repeat split; auto.
  rewrite (resets_app ch a (emit e a) [e] eq_refl).
  rewrite filter_cons_False, filter_nil; [simpl; lia|].
  rewrite He. discriminate.
Qed.

Lemma only_tx_snoc (q : list rx_item) (t : tx_item) :
  only_tx q = true -> only_tx (q ++ [Tx t]) = true.
Proof. intros H. unfold only_tx in *. rewrite forallb_app, H. reflexivity. Qed.

Lemma send_can_view (key : string) (ctx : gmap string Py.value) (a : App) :
  same_view a (settle a (_send_can key ctx a)).
Proof.
  unfold _send_can. destruct (_client a) as [c|]; [|apply same_view_refl].
  unfold CANClient.send_from_key.
  destruct (negb (CANClient.bus c)); [apply same_view_refl|].
  destruct (messages (CANClient.cfg c) !! key) as [md|]; [|apply same_view_refl].
  destruct (CANClient.is_empty_def md); [apply same_view_refl|].
  destruct (msg_id md) as [id|]; [|apply same_view_refl].
  simpl.
  destruct (same_view_emit a (BusSend
              {| arbitration_id := id; is_extended_id := default false (extended md);
                 msg_data := CANClient._build_data md ctx |}))
    as (H1 & H2 & H3 & H4 & H5); [by intros []|].
  unfold same_view. repeat split; try apply H4; auto.
  simpl. apply only_tx_snoc.
Qed.

Lemma button_view (a : App) (ev : event) :
  match ev with Tick _ _ _ => False | _ => True end ->
  same_view a (step a ev).
Proof.
  destruct ev as [now ts items| | | |c]; simpl; [tauto| | | |]; intros _.
  - unfold on_start. destruct (_get_state_setpoint a).
    + apply send_can_view.
    + simpl. apply same_view_emit. by intros [].
  - unfold on_stop. destruct (_get_state_setpoint a).
    + apply send_can_view.
    + simpl. apply same_view_emit. by intros [].
  - apply send_can_view.
  - unfold same_view. auto 10.
Qed.

Lemma run_snoc (a : App) (evs : list event) (ev : event) :
  run a (evs ++ [ev]) = step (run a evs) ev.
Proof. unfold run. by rewrite fold_left_app. Qed.

Lemma last_seen_snoc (ch : channel) (evs : list event) (ev : event) :
  last_seen ch (evs ++ [ev])
    = match ev with
      | Tick now _ items => if has_snapshot ch items then Some now else last_seen ch evs
      | _ => last_seen ch evs
      end.
Proof. unfold last_seen. by rewrite fold_left_app. Qed.

Lemma last_snapshot_snoc (evs : list event) (ev : event) :
  last_snapshot (evs ++ [ev])
    = match ev with
      | Tick _ _ items => last_telemetry items (last_snapshot evs)
      | _ => last_snapshot evs
      end.
Proof. unfold last_snapshot. by rewrite fold_left_app. Qed.

Lemma consistent_button (evs : list event) (ev : event) (a : App) :
  match ev with Tick _ _ _ => False | _ => True end ->
  consistent evs a -> consistent (evs ++ [ev]) (step a ev).
Proof.
  intros Hev (Hq & Hv & Hs & Hs' & Hm).
  destruct (button_view a ev Hev) as (Hc & Hmain & _ & Hch & Hq').
  unfold consistent.
  rewrite last_snapshot_snoc, Hc, Hmain.
  assert (forall ch, last_seen ch (evs ++ [ev]) = last_seen ch evs) as Hls.
  { intros ch. rewrite last_seen_snoc. by destruct ev. }
  assert (match ev with
          | Tick _ _ items => last_telemetry items (last_snapshot evs)
          | _ => last_snapshot evs
          end = last_snapshot evs) as -> by (by destruct ev).
  split; [auto|]. split.
  - intros ch. destruct (Hch ch) as (-> & -> & _). rewrite Hls. apply Hv.
  - destruct (Hch Controller) as (Hcv & _). simpl in Hcv. rewrite Hcv. auto.
Qed.

Lemma consistent_tick (evs : list event) (now : float) (ts : string)
      (items : list rx_item) (a : App) :
  consistent evs a -> consistent (evs ++ [Tick now ts items]) (step a (Tick now ts items)).
Proof.
  intros (Hq & Hv & Hs & Hs' & Hm). simpl.
  pose proof (poll_ctrl now ts (deliver items a)) as (Hset & Hmain & Hq' & _).
  pose proof (fun ch => poll_channel ch now ts (deliver items a)) as Hch.
  pose proof (fun ch => fires_snapshot ch now (deliver items a)) as Hfs.
  simpl in *.
  rewrite (last_telemetry_queue _ _ _ Hq) in Hset, Hmain.
  unfold consistent. rewrite last_snapshot_snoc, Hq'.
  rewrite (last_telemetry_acc items (last_snapshot evs)).
  split; [reflexivity|]. split; [|split; [|split]].
  - intros ch. destruct (Hch ch) as (Hv1 & Hl1 & _).
    specialize (Hfs ch).
    rewrite (has_snapshot_queue ch _ _ Hq) in Hv1, Hl1, Hfs.
    rewrite last_seen_snoc, Hv1, Hl1.
    destruct (has_snapshot ch items); [auto|]. simpl.
    intros [Hva _]%andb_true_iff. auto.
  - destruct (Hch Controller) as (Hv1 & _ & _). simpl in Hv1.
    specialize (Hfs Controller).
    rewrite (has_snapshot_queue Controller _ _ Hq) in Hv1, Hfs.
    rewrite Hv1, Hset.
    intros [Hv2 Hnf%negb_true_iff]%andb_true_iff. rewrite Hnf.
    destruct (last_telemetry items None) as [t|] eqn:E; [eauto|].
    destruct (has_snapshot Controller items) eqn:Hhs.
    + apply has_snapshot_last_telemetry in Hhs. rewrite E in Hhs. by destruct Hhs.
    + simpl in Hv2. auto.
  - destruct (Hch Controller) as (Hv1 & _ & _). simpl in Hv1.
    specialize (Hfs Controller).
    rewrite (has_snapshot_queue Controller _ _ Hq) in Hv1, Hfs.
    rewrite Hv1, Hset.
    destruct (fires Controller now (deliver items a)); [reflexivity|].
    rewrite andb_true_r. intros [Hhs Hva]%orb_false_iff.
    destruct (last_telemetry items None) as [t|] eqn:E; [|auto].
    assert (has_snapshot Controller items = true) as Hhs'
        by (apply has_snapshot_last_telemetry; rewrite E; eauto).
    congruence.
  - rewrite Hmain, Hm. by destruct (last_telemetry items None).
Qed.

Lemma init_consistent : consistent [] init.
Proof.
  unfold consistent. simpl. repeat split; try discriminate; auto.
  by intros [].
Qed.

(** Every state a session reaches is consistent with its history. *)
Lemma run_consistent (evs : list event) : consistent evs (run init evs).
Proof.
  induction evs as [|ev evs IH] using rev_ind; [apply init_consistent|].
  rewrite run_snoc. destruct ev as [now ts items| | | |c].
  - by apply consistent_tick.
  - by apply consistent_button.
  - by apply consistent_button.
  - by apply consistent_button.
  - by apply consistent_button.
Qed.

End Run.

(* ================================================================== *)
(** ** Theorems: liveness, commands and state decoding *)
(* ================================================================== *)

Section Liveness.
Import ACControllerApp Session Spec.

Lemma deliver_channel (ch : channel) (items : list rx_item) (a : App) :
  valid ch (deliver items a) = valid ch a
  /\ last_rx ch (deliver items a) = last_rx ch a
  /\ resets ch (deliver items a) = resets ch a.
Proof. by destruct ch. Qed.

Lemma liveness_tick (ch : channel) (evs : list event) (now : float) (ts : string)
      (items : list rx_item) :
  liveness_of ch (evs ++ [Tick now ts items])
    = (next (liveness_of ch evs) (has_snapshot ch items) (timed_out ch evs now)).1
  /\ resets ch (run init (evs ++ [Tick now ts items]))
     = (resets ch (run init evs)
        + if (next (liveness_of ch evs) (has_snapshot ch items) (timed_out ch evs now)).2
          then 1 else 0)%nat.
Proof.
  unfold liveness_of, timed_out. rewrite run_snoc, last_seen_snoc.
  destruct (run_consistent evs) as (Hq & Hv & _).
  set (a := run init evs) in *.
  pose proof (poll_channel ch now ts (deliver items a)) as (Hv1 & _ & Hr).
  pose proof (fires_snapshot ch now (deliver items a)) as Hfs.
  simpl in Hv1, Hr, Hfs.
  rewrite (has_snapshot_queue ch _ _ Hq) in Hv1, Hfs.
  simpl. rewrite Hv1, Hr. clear Hv1 Hr.
  unfold fires in *. simpl in *. rewrite (has_snapshot_queue ch _ _ Hq) in *.
  destruct (deliver_channel ch items a) as (Hd1 & Hd2 & Hd3).
  rewrite Hd1, Hd2, Hd3 in *. clear Hd1 Hd2 Hd3.
  destruct (has_snapshot ch items) eqn:Hhs.
  - rewrite (Hfs eq_refl). simpl. auto.
  - simpl. destruct (valid ch a) eqn:Hva.
    + rewrite (Hv ch Hva). simpl.
      destruct (fgt (fsub now (last_rx ch a)) TIMEOUT_S); simpl; auto.
    + simpl. destruct (last_seen ch evs); auto.
Qed.

Lemma liveness_button (ch : channel) (evs : list event) (ev : event) :
  match ev with Tick _ _ _ => False | _ => True end ->
  liveness_of ch (evs ++ [ev]) = liveness_of ch evs
  /\ resets ch (run init (evs ++ [ev])) = resets ch (run init evs).
Proof.
  intros Hev. unfold liveness_of. rewrite run_snoc, last_seen_snoc.
  destruct (button_view (run init evs) ev Hev) as (_ & _ & _ & Hch & _).
  destruct (Hch ch) as (-> & _ & ->). by destruct ev.
Qed.

(** C3. The liveness of each channel is the state machine on Unseen,
    Valid and Stale: it starts Unseen; a period in which a snapshot
    arrived leaves it Valid; a period without one leaves Unseen and
    Stale as they are and takes Valid to Stale exactly when its check
    sees [now - lastSeen > 10 s], and the display reset of the channel
    is called in that period and in no other (so not again while the
    channel stays Stale); the command buttons and the connection change
    neither the state nor the number of resets. *)
Theorem liveness_state_machine (ch : channel) (evs : list event) :
  liveness_of ch [] = Unseen
  /\ (forall now ts items,
        liveness_of ch (evs ++ [Tick now ts items])
          = (next (liveness_of ch evs) (has_snapshot ch items) (timed_out ch evs now)).1
        /\ resets ch (run init (evs ++ [Tick now ts items]))
           = (resets ch (run init evs)
              + if (next (liveness_of ch evs) (has_snapshot ch items)
                      (timed_out ch evs now)).2
                then 1 else 0)%nat)
  /\ (liveness_of ch (evs ++ [Start]) = liveness_of ch evs
      /\ resets ch (run init (evs ++ [Start])) = resets ch (run init evs))
  /\ (liveness_of ch (evs ++ [Stop]) = liveness_of ch evs
      /\ resets ch (run init (evs ++ [Stop])) = resets ch (run init evs))
  /\ (liveness_of ch (evs ++ [SetPoint]) = liveness_of ch evs
      /\ resets ch (run init (evs ++ [SetPoint])) = resets ch (run init evs))
  /\ (forall c, liveness_of ch (evs ++ [Client c]) = liveness_of ch evs
                /\ resets ch (run init (evs ++ [Client c])) = resets ch (run init evs)).
Proof.
  split; [by destruct ch|].
  split; [intros; apply liveness_tick|].
  repeat split; intros; by apply liveness_button.
Qed.

End Liveness.

Section Commands.
Import ACControllerApp Session Spec.

(** The setpoint the START and STOP handlers read after a history. *)
Lemma setpoint_after (evs : list event) :
  _get_state_setpoint (run init evs)
    = match liveness_of Controller evs with
      | Valid => tel_set <$> last_snapshot evs
      | _ => None
      end.
Proof.
  unfold liveness_of, _get_state_setpoint.
  destruct (run_consistent evs) as (_ & _ & Hs & Hs' & _).
  simpl. destruct (_ctrl_valid (run init evs)) eqn:Hv.
  - destruct (Hs eq_refl) as (t & -> & ->). apply int_of_str_int.
  - rewrite (Hs' eq_refl). by destruct (last_seen Controller evs).
Qed.

Lemma valid_has_snapshot (evs : list event) :
  liveness_of Controller evs = Valid -> is_Some (last_snapshot evs).
Proof.
  unfold liveness_of.
  destruct (run_consistent evs) as (_ & _ & Hs & _).
  simpl. destruct (_ctrl_valid (run init evs)).
  - intros _. destruct (Hs eq_refl) as (t & -> & _). eauto.
  - by destruct (last_seen Controller evs).
Qed.

Lemma send_can_sent (key : string) (ctx : gmap string Py.value) (a : App)
      (c : CANClient.t) (md : msg_def) (id : Z) :
  _client a = Some c -> CANClient.bus c = true ->
  messages (CANClient.cfg c) !! key = Some md -> msg_id md = Some id ->
  _send_can key ctx a
    = inr (deliver [Tx {| tx_id := id; tx_ext := default false (extended md);
                          tx_data := CANClient._build_data md ctx |}]
             (emit (BusSend {| arbitration_id := id;
                               is_extended_id := default false (extended md);
                               msg_data := CANClient._build_data md ctx |}) a)).
Proof.
  intros Hc Hb Hm Hid. unfold _send_can, CANClient.send_from_key.
  rewrite Hc, Hb, Hm. simpl.
  assert (CANClient.is_empty_def md = false) as ->.
  { unfold CANClient.is_empty_def. by rewrite Hid. }
  by rewrite Hid.
Qed.

(** C4 (as amended). START and STOP read the setpoint that the
    controller block displays. After any history in which the controller
    channel is not Valid (no snapshot was ever received, or the channel
    went stale and the display was reset) the handler only shows the
    warning: nothing is encoded, nothing is sent, nothing is queued.
    While the channel is Valid the handler passes the setpoint of the
    last snapshot as [value] to the sender, which (connected, with the
    message defined) hands the frame encoded from it to the bus. *)
Theorem start_stop_need_setpoint (evs : list event) :
  (liveness_of Controller evs <> Valid ->
     on_start (run init evs) = inr (emit no_setpoint_warning (run init evs))
     /\ on_stop (run init evs) = inr (emit no_setpoint_warning (run init evs)))
  /\ (last_snapshot evs = None -> liveness_of Controller evs = Unseen)
  /\ (liveness_of Controller evs = Valid ->
      exists t, last_snapshot evs = Some t
        /\ on_start (run init evs)
           = _send_can "START" {[ "value" := VInt (tel_set t) ]} (run init evs)
        /\ on_stop (run init evs)
           = _send_can "STOP" {[ "value" := VInt (tel_set t) ]} (run init evs))
  /\ (forall key ctx c md id,
        _client (run init evs) = Some c -> CANClient.bus c = true ->
        messages (CANClient.cfg c) !! key = Some md -> msg_id md = Some id ->
        _send_can key ctx (run init evs)
          = inr (deliver [Tx {| tx_id := id; tx_ext := default false (extended md);
                                tx_data := CANClient._build_data md ctx |}]
                   (emit (BusSend {| arbitration_id := id;
                                     is_extended_id := default false (extended md);
                                     msg_data := CANClient._build_data md ctx |})
                      (run init evs)))).
Proof.
  split; [|split; [|split]].
  - intros Hl. unfold on_start, on_stop. rewrite setpoint_after.
    by destruct (liveness_of Controller evs).
  - intros Hn. destruct (liveness_of Controller evs) eqn:Hl; [reflexivity| |].
    + destruct (valid_has_snapshot evs Hl) as [t Ht]. congruence.
    + unfold liveness_of in Hl.
      destruct (run_consistent evs) as (_ & Hv & _).
      destruct (valid Controller (run init evs)); [discriminate|].
      destruct (last_seen Controller evs) as [t|] eqn:Els; [|discriminate].
      exfalso. clear Hl Hv. revert t Els Hn.
      induction evs as [|ev evs IH] using rev_ind; intros t; [discriminate|].
      rewrite last_seen_snoc, last_snapshot_snoc.
      destruct ev as [now ts items| | | |c]; eauto.
      rewrite last_telemetry_acc.
      destruct (has_snapshot Controller items) eqn:Hhs.
      * apply has_snapshot_last_telemetry in Hhs as [t' ->]. discriminate.
      * destruct (last_telemetry items None); [discriminate|]. eauto.
  - intros Hl. destruct (valid_has_snapshot evs Hl) as [t Ht]. exists t.
    unfold on_start, on_stop. rewrite setpoint_after, Hl, Ht. auto.
  - intros key ctx c md id Hc Hb Hm Hid. by apply (send_can_sent key ctx _ c md id).
Qed.

(** C5. After any history, SET passes the mode 0x00 exactly when the
    Main state of the most recent controller snapshot is 2, and 0x20
    otherwise, also when no snapshot was ever received; a template field
    named [mode] is encoded as that one byte. *)
Theorem set_mode_from_last_main (evs : list event) :
  on_set (run init evs)
    = _send_can "SET" (<[ "mode" := VInt (mode_after evs) ]>
                         {[ "value" := VInt (var_set_input (run init evs)) ]})
        (run init evs)
  /\ set_ctx (run init evs) !! "mode" = Some (VInt (mode_after evs))
  /\ CANClient.item_bytes (set_ctx (run init evs)) (TDict Sample.mode_field)
     = [mode_after evs]
  /\ (mode_after evs = 0x00
      <-> exists t, last_snapshot evs = Some t /\ high_nibble (tel_state_raw t) = 2)
  /\ (mode_after evs = 0x00 \/ mode_after evs = 0x20).
Proof.
  assert (set_ctx (run init evs)
          = <[ "mode" := VInt (mode_after evs) ]>
              {[ "value" := VInt (var_set_input (run init evs)) ]}) as Hctx.
  { unfold set_ctx, mode_after.
    destruct (run_consistent evs) as (_ & _ & _ & _ & ->).
    destruct (last_snapshot evs) as [t|]; simpl; [|reflexivity].
    destruct (Z.eqb_spec (high_nibble (tel_state_raw t)) 2) as [->|Hne].
    - reflexivity.
    - rewrite bool_decide_eq_false_2; [reflexivity|congruence]. }
  assert (mode_after evs = 0x00 \/ mode_after evs = 0x20) as Hmode.
  { unfold mode_after. destruct (last_snapshot evs); [|auto].
    destruct (_ =? 2); auto. }
  split; [unfold on_set; by rewrite Hctx|].
  split; [rewrite Hctx; apply lookup_insert_eq|].
  split.
  { rewrite Hctx. unfold CANClient.item_bytes, CANClient.field_bytes,
      CANClient.field_num. simpl. rewrite lookup_insert_eq.
    destruct Hmode as [-> | ->]; reflexivity. }
  split; [|exact Hmode].
  unfold mode_after. destruct (last_snapshot evs) as [t|].
  - destruct (Z.eqb_spec (high_nibble (tel_state_raw t)) 2) as [He|Hne].
    + split; [eauto|reflexivity].
    + split; [discriminate|]. intros (t' & [= <-] & Ht). contradiction.
  - split; [discriminate|]. intros (t' & [=] & _).
Qed.

End Commands.

Section StateDecoding.
Import ACControllerApp Session Spec.

(** A table made from a literal list holds exactly the listed keys. *)
Lemma table_domain (l : list (Z * string)) (hi : Z) (n : Z) :
  l.*1 = Z.of_nat <$> seq 0 (Z.to_nat (hi + 1)) -> 0 <= hi ->
  is_Some ((list_to_map l : gmap Z string) !! n) <-> 0 <= n <= hi.
Proof.
  intros Hl Hhi.
  rewrite <- not_eq_None_Some, <- not_elem_of_list_to_map, Hl.
  rewrite list_elem_of_fmap. setoid_rewrite elem_of_seq.
  split.
  - intros H. destruct (decide (0 <= n <= hi)) as [|Hn]; [done|].
    exfalso. apply H. intros (k & -> & Hk). lia.
  - intros Hn H. apply H. exists (Z.to_nat n). lia.
Qed.

Lemma MAIN_STATE_domain (n : Z) : is_Some (MAIN_STATE !! n) <-> 0 <= n <= 5.
Proof. by apply table_domain. Qed.

Lemma SUB_STATE_domain (n : Z) : is_Some (SUB_STATE !! n) <-> 0 <= n <= 4.
Proof. by apply table_domain. Qed.

Lemma INV_MAIN_domain (n : Z) : is_Some (INV_MAIN !! n) <-> 0 <= n <= 4.
Proof. by apply table_domain. Qed.

Lemma INV_SUB_domain (n : Z) : is_Some (INV_SUB !! n) <-> 0 <= n <= 3.
Proof. by apply table_domain. Qed.

Lemma on_telemetry_state (now : float) (ts : string) (t : telemetry_item) (a : App) :
  _last_main_state (on_telemetry now ts t a)
    = Some (Z.land (Z.shiftr (tel_state_raw t) 4) 0xF)
  /\ var_state_main (ctrl (on_telemetry now ts t a))
     = ("Main: " ++ default (unknown (Z.land (Z.shiftr (tel_state_raw t) 4) 0xF))
                      (MAIN_STATE !! Z.land (Z.shiftr (tel_state_raw t) 4) 0xF))%string
  /\ var_state_sub (ctrl (on_telemetry now ts t a))
     = ("Sub:  " ++ default (unknown (Z.land (tel_state_raw t) 0xF))
                      (SUB_STATE !! Z.land (tel_state_raw t) 0xF))%string.
Proof. unfold on_telemetry. destruct (tel_raw t); auto. Qed.

Lemma on_inv_state (now : float) (ts : string) (i : inv_item) (a : App) :
  var_inv_sub (inv (on_inv now ts i a))
    = match inv_state6 i with
      | Some s6 => ("Sub:  " ++ default (unknown s6) (INV_SUB !! s6))%string
      | None => var_inv_sub (inv a)
      end
  /\ var_inv_main (inv (on_inv now ts i a))
     = match inv_state7 i with
       | Some s7 => ("Main: " ++ default (unknown s7) (INV_MAIN !! s7))%string
       | None => var_inv_main (inv a)
       end.
Proof. unfold on_inv. destruct (inv_raw i); auto. Qed.

(** C6. A controller frame's state byte (byte 7) is decoded by the poll
    loop into Main = (byte >> 4) & 0xF and Sub = byte & 0xF; each is
    looked up in its table (Main 0..5, Sub 0..4) and a value outside the
    table is shown as the "unknown" text with the value in brackets
    (the program's label for it is the Russian abbreviation), nothing
    fails. Byte 0x23 gives Main 2 and Sub 3; byte 0xFF gives Main 15 and
    Sub 15, both shown as unknown(15). *)
Theorem ctrl_state_nibbles (c : CANConfig) (now : float) (ts ts' : string)
        (msg : Message) (b : Z) (a : App) :
  controller_signature c msg -> msg_data msg !! 7%nat = Some b ->
  _last_main_state (fold_left (on_item now ts') (CANClient.rx_step c ts msg) a)
    = Some (Z.land (Z.shiftr b 4) 0xF)
  /\ var_state_main (ctrl (fold_left (on_item now ts') (CANClient.rx_step c ts msg) a))
     = ("Main: " ++ default (unknown (Z.land (Z.shiftr b 4) 0xF))
                      (MAIN_STATE !! Z.land (Z.shiftr b 4) 0xF))%string
  /\ var_state_sub (ctrl (fold_left (on_item now ts') (CANClient.rx_step c ts msg) a))
     = ("Sub:  " ++ default (unknown (Z.land b 0xF)) (SUB_STATE !! Z.land b 0xF))%string
  /\ (forall n, is_Some (MAIN_STATE !! n) <-> 0 <= n <= 5)
  /\ (forall n, is_Some (SUB_STATE !! n) <-> 0 <= n <= 4)
  /\ (b = 0x23 ->
      Z.land (Z.shiftr b 4) 0xF = 2 /\ Z.land b 0xF = 3
      /\ var_state_main (ctrl (fold_left (on_item now ts') (CANClient.rx_step c ts msg) a))
         = "Main: ожидание"
      /\ var_state_sub (ctrl (fold_left (on_item now ts') (CANClient.rx_step c ts msg) a))
         = "Sub:  перед ожиданием")
  /\ (b = 0xFF ->
      Z.land (Z.shiftr b 4) 0xF = 15 /\ Z.land b 0xF = 15
      /\ var_state_main (ctrl (fold_left (on_item now ts') (CANClient.rx_step c ts msg) a))
         = ("Main: " ++ unknown 15)%string
      /\ var_state_sub (ctrl (fold_left (on_item now ts') (CANClient.rx_step c ts msg) a))
         = ("Sub:  " ++ unknown 15)%string
      /\ unknown 15 = "неизв(15)").
Proof.
  intros Hc Hb.
  destruct (rx_try_controller c msg Hc) as (d0&d1&d2&d3&d6&d7&_&_&_&_&_&H7&Hr).
  assert (d7 = b) as -> by congruence.
  unfold CANClient.rx_step. rewrite Hr. cbn [fold_left on_item CANClient._dbg].
  set (a1 := _log ts' _ a).
  set (t := {| tel_err := d0; tel_set := d1; tel_temp := d2; tel_cond := d3;
               tel_fan_raw := d6; tel_state_raw := b; tel_raw := msg_data msg |}).
  destruct (on_telemetry_state now ts' t a1) as (Hm & Hmain & Hsub).
  change (tel_state_raw t) with b in *.
  assert (forall s x, _last_main_state (_log ts' s x) = _last_main_state x
                      /\ ctrl (_log ts' s x) = ctrl x) as Hlog by (intros; split; reflexivity).
  destruct (Hlog (CANClient.telem_line d0 d1 d2 d3 d6 b) (on_telemetry now ts' t a1))
    as (-> & ->).
  rewrite Hm, Hmain, Hsub.
  split; [reflexivity|]. split; [reflexivity|]. split; [reflexivity|].
  split; [apply MAIN_STATE_domain|]. split; [apply SUB_STATE_domain|].
  split; intros ->; repeat split; reflexivity.
Qed.

(** C7 (as amended). In inverter decoding the Sub state is byte 6 as a
    whole and the Main state is byte 7 as a whole (no nibble is masked
    out), each present when the frame is long enough; the Sub table
    holds 0..3 and the Main table 0..4, and any other byte value is
    shown as the "unknown" text with the value in brackets, nothing
    fails. *)
Theorem inverter_state_bytes (c : CANConfig) (now : float) (ts ts' : string)
        (msg : Message) (a : App) :
  ~ controller_signature c msg -> inverter_signature c msg ->
  var_inv_sub (inv (fold_left (on_item now ts') (CANClient.rx_step c ts msg) a))
    = match msg_data msg !! 6%nat with
      | Some s6 => ("Sub:  " ++ default (unknown s6) (INV_SUB !! s6))%string
      | None => var_inv_sub (inv a)
      end
  /\ var_inv_main (inv (fold_left (on_item now ts') (CANClient.rx_step c ts msg) a))
     = match msg_data msg !! 7%nat with
       | Some s7 => ("Main: " ++ default (unknown s7) (INV_MAIN !! s7))%string
       | None => var_inv_main (inv a)
       end
  /\ (forall n, is_Some (INV_SUB !! n) <-> 0 <= n <= 3)
  /\ (forall n, is_Some (INV_MAIN !! n) <-> 0 <= n <= 4).
Proof.
  intros Hc Hi.
  destruct (rx_try_inverter c msg Hc Hi) as (d0&d1&d2&_&_&_&Hr).
  unfold CANClient.rx_step. rewrite Hr. cbn [fold_left on_item CANClient._dbg].
  set (a1 := _log ts' _ a).
  set (i := {| inv_cur := d0; inv_volt := d1; inv_temp := d2; inv_raw := msg_data msg;
               inv_err5 := msg_data msg !! 5%nat; inv_state6 := msg_data msg !! 6%nat;
               inv_state7 := msg_data msg !! 7%nat |}).
  destruct (on_inv_state now ts' i a1) as (Hsub & Hmain).
  change (inv_state6 i) with (msg_data msg !! 6%nat) in *.
  change (inv_state7 i) with (msg_data msg !! 7%nat) in *.
  assert (forall s x, inv (_log ts' s x) = inv x) as Hlog by reflexivity.
  rewrite Hlog, Hsub, Hmain.
  split; [reflexivity|]. split; [reflexivity|].
  split; [apply INV_SUB_domain | apply INV_MAIN_domain].
Qed.

End StateDecoding.

(* ================================================================== *)
(** ** Worked instances *)
(* ================================================================== *)

Section Instances.
Import CANClient ACControllerApp Session Spec Sample.

(** C1 at a template whose leading entries already fill the frame. *)
Lemma build_data_exactly_8_witness :
  (8 <= length (concat (map (item_bytes (value_ctx 0x0A0B0C0D)) long_pre)))%nat
  /\ _build_data long_def (value_ctx 0x0A0B0C0D)
     = take 8 (concat (map (item_bytes (value_ctx 0x0A0B0C0D)) long_pre)).
Proof.
  assert (8 <= length (concat (map (item_bytes (value_ctx 0x0A0B0C0D)) long_pre)))%nat
    as Hlen by (vm_compute; lia).
  split; [exact Hlen|].
  destruct (build_data_exactly_8 (value_ctx 0x0A0B0C0D) long_def) as (_ & _ & H).
  apply (H long_pre long_post); [reflexivity | reflexivity | exact Hlen].
Defined.

Example build_data_long :
  _build_data long_def (value_ctx 0x0A0B0C0D) = [1; 2; 3; 4; 5; 0x0D; 0x0C; 0x0B].
Proof. reflexivity. Qed.

Example build_data_literal :
  _build_data {| msg_id := Some 1; extended := None;
                 data := Some [0x101; 2; 3; 4; 5; 6; 7; 8; 9; 10]; data_template := None |} ∅
    = [1; 2; 3; 4; 5; 6; 7; 8]
  /\ _build_data {| msg_id := Some 1; extended := None; data := Some [7];
                    data_template := None |} ∅
     = [7; 0; 0; 0; 0; 0; 0; 0]
  /\ _build_data {| msg_id := Some 1; extended := None; data := None;
                    data_template := None |} ∅
     = [0; 0; 0; 0; 0; 0; 0; 0].
Proof. repeat split; reflexivity. Qed.

(** C9 at a width-2 field tagged in upper case. *)
Lemma endian_mirror_witness :
  field_bytes (value_ctx 0x1234) "value"
    {| field := Some "value"; value := None; scale := None;
       bytes := Some 2; endian := Some "BE" |}
  = rev (field_bytes (value_ctx 0x1234) "value"
           {| field := Some "value"; value := None; scale := None;
              bytes := Some 2; endian := Some "LE" |}).
Proof.
  destruct (endian_mirror (value_ctx 0x1234) 0 "value" None) as (_ & _ & _ & _ & H).
  apply (H 2 "LE" "BE"); [left; reflexivity | reflexivity | reflexivity].
Defined.

Example endian_bytes :
  serialize 0x1234 2 "le" = [0x34; 0x12] /\ serialize 0x1234 2 "be" = [0x12; 0x34]
  /\ serialize 0x0A0B0C0D 4 "le" = [0x0D; 0x0C; 0x0B; 0x0A]
  /\ serialize 0x0A0B0C0D 4 "be" = [0x0A; 0x0B; 0x0C; 0x0D]
  /\ serialize (-2) 2 "le" = [0xFE; 0xFF].
Proof. repeat split; reflexivity. Qed.

(** C10 at a field of width 3. *)
Lemma other_width_one_byte_witness :
  item_bytes (value_ctx 0x1234) (TDict wide_field) = [0x34]
  /\ item_bytes (value_ctx 0x1234) (TDict wide_field)
     = item_bytes (value_ctx 0x1234)
         (TDict {| field := Some "value"; value := None; scale := None;
                   bytes := Some 1; endian := None |}).
Proof.
  destruct (other_width_one_byte (value_ctx 0x1234) "value" wide_field 3) as (H1 & H2);
    [reflexivity | reflexivity | lia | lia | lia |].
  split; [rewrite H1; reflexivity | exact H2].
Defined.

(** C8 as stated fails at the tie 5 * 0.5 = 2.5: the encoder's number
    is 2, rounding the tie away from zero gives 3. *)
Lemma round_half_away_counterexample :
  fmul (float_of_Z 5) half = S754_finite false 5629499534213120 (-51)
  /\ field_num (value_ctx 5) "value" half = 2
  /\ round_half_away_float (fmul (float_of_Z 5) half) = Some 3
  /\ Some (field_num (value_ctx 5) "value" half)
     <> round_half_away_float (fmul (float_of_Z 5) half).
Proof. repeat split; try reflexivity. vm_compute. discriminate. Qed.

(** C8 as amended, at the same tie. *)
Lemma field_num_round_half_even_witness :
  nearest_ties_even 5629499534213120 (2 ^ 51) (field_num (value_ctx 5) "value" half)
  /\ field_num (value_ctx 5) "value" half = 2.
Proof.
  split; [|reflexivity].
  destruct (field_num_round_half_even (value_ctx 5) "value" half) as (_ & H).
  apply (H (float_of_Z 5) 5629499534213120 (2 ^ 51)); reflexivity.
Defined.

Example rounding_ties :
  field_num (value_ctx 1) "value" half = 0 /\ field_num (value_ctx 3) "value" half = 2
  /\ field_num (value_ctx 5) "value" half = 2 /\ field_num (value_ctx 7) "value" half = 4
  /\ field_num (value_ctx (-1)) "value" half = 0
  /\ field_num (value_ctx (-3)) "value" half = -2
  /\ field_num ∅ "value" half = 0
  /\ field_num (value_ctx (2 ^ 1024)) "value" half = 0
  /\ field_num {[ "value" := VFloat S754_nan ]} "value" half = 0.
Proof. repeat split; reflexivity. Qed.

Lemma ctrl_frame_matches : controller_signature config ctrl_frame.
Proof. repeat split; simpl; lia. Defined.

Lemma inv_frame_matches :
  ~ controller_signature config inv_frame /\ inverter_signature config inv_frame.
Proof.
  split; [intros (H & _); discriminate H|]. repeat split; simpl; lia.
Defined.

Lemma foreign_frame_unmatched :
  ~ controller_signature config foreign_frame /\ ~ inverter_signature config foreign_frame.
Proof. split; intros (H & _); discriminate H. Defined.

(** C2 at a controller frame, a 7-byte inverter frame and a foreign
    frame. *)
Lemma dispatch_by_signature_witness :
  (exists t line,
     rx_step config "12:00:00" ctrl_frame
       = [_dbg "12:00:00" (rx_line ctrl_frame); Telemetry t; Text line]
     /\ tel_set t = 22 /\ tel_state_raw t = 0x23)
  /\ (exists i line,
        rx_step config "12:00:00" inv_frame
          = [_dbg "12:00:00" (rx_line inv_frame); Inv i; Text line]
        /\ inv_err5 i = Some 0x02 /\ inv_state6 i = Some 0x13 /\ inv_state7 i = None)
  /\ rx_step config "12:00:00" foreign_frame
     = [Text "[12:00:00] DBG: RX id=0x123 ext=False len=3";
        Text "DBG: not matched → id=0x123 ext=False len=3 | telemetry exp: id=0x5E0100 ext=True len>=8 ; inverter exp: id=0x5E0200 ext=True len>=3";
        Text "CAN RX id=0x123 data=01 02 FF"].
Proof.
  split; [|split].
  - destruct (dispatch_by_signature config "12:00:00" ctrl_frame) as (_ & H & _).
    destruct (H ctrl_frame_matches) as (d0&d1&d2&d3&d6&d7&_&H1&_&_&_&H7&Hr).
    eexists. eexists. split; [exact Hr|]. simpl in *. split; congruence.
  - destruct (dispatch_by_signature config "12:00:00" inv_frame) as (_ & _ & H & _).
    destruct (H (proj1 inv_frame_matches) (proj2 inv_frame_matches))
      as (d0&d1&d2&i&_&_&_&Hi&Hr&_).
    exists i. eexists. split; [exact Hr|]. rewrite Hi. repeat split; reflexivity.
  - destruct (dispatch_by_signature config "12:00:00" foreign_frame) as (_ & _ & _ & H).
    rewrite (H (proj1 foreign_frame_unmatched) (proj2 foreign_frame_unmatched)).
    reflexivity.
Defined.

(** The liveness scenario of the controller channel: a snapshot at
    1000.0 s, then checks 9.9 s, 10.1 s, 15 s and 20 s later, then a new
    snapshot. *)
Example liveness_scenario :
  liveness_of Controller heard = Valid
  /\ liveness_of Controller (heard ++ [Tick t1009_9 "" []]) = Valid
  /\ resets Controller (run init (heard ++ [Tick t1009_9 "" []])) = 0%nat
  /\ liveness_of Controller (heard ++ [Tick t1009_9 "" []; Tick t1010_1 "" []]) = Stale
  /\ resets Controller (run init (heard ++ [Tick t1009_9 "" []; Tick t1010_1 "" []])) = 1%nat
  /\ liveness_of Controller silent = Stale
  /\ resets Controller (run init silent) = 1%nat
  /\ liveness_of Controller (silent ++ [Tick t1020 "" [Telemetry snapshot]]) = Valid
  /\ liveness_of Inverter silent = Unseen
  /\ resets Inverter (run init silent) = 0%nat.
Proof. vm_compute. repeat split; reflexivity. Qed.

(** C4 as stated fails once the channel has gone stale: a snapshot was
    received (START right after it sends the frame that ends in the
    setpoint 22), but after more than 10 s of silence START is answered
    by the warning and nothing is sent. *)
Lemma start_after_silence_counterexample :
  last_snapshot (heard ++ [Tick t1010_1 "" []]) = Some snapshot
  /\ on_start (run init heard)
     = _send_can "START" (value_ctx 22) (run init heard)
  /\ trace (settle (run init heard) (on_start (run init heard)))
     = [BusSend {| arbitration_id := 0x5E0001; is_extended_id := true;
                   msg_data := [1; 0; 0; 0; 0; 0; 0; 22] |}]
  /\ on_start (run init (heard ++ [Tick t1010_1 "" []]))
     = inr (emit no_setpoint_warning (run init (heard ++ [Tick t1010_1 "" []])))
  /\ trace (settle (run init (heard ++ [Tick t1010_1 "" []]))
              (on_start (run init (heard ++ [Tick t1010_1 "" []]))))
     = [ResetCtrlDisplay; no_setpoint_warning].
Proof. vm_compute. repeat split; reflexivity. Qed.

(** C4 as amended, at the session that has just heard a snapshot. *)
Lemma start_stop_need_setpoint_witness :
  liveness_of Controller heard = Valid
  /\ (exists t, last_snapshot heard = Some t
        /\ on_start (run init heard)
           = _send_can "START" {[ "value" := VInt (tel_set t) ]} (run init heard)
        /\ on_stop (run init heard)
           = _send_can "STOP" {[ "value" := VInt (tel_set t) ]} (run init heard))
  /\ liveness_of Controller [] <> Valid
  /\ on_start (run init []) = inr (emit no_setpoint_warning (run init [])).
Proof.
  assert (liveness_of Controller heard = Valid) as Hv by (vm_compute; reflexivity).
  assert (liveness_of Controller [] <> Valid) as Hu by (vm_compute; discriminate).
  split; [exact Hv|]. split; [|split; [exact Hu|]].
  - destruct (start_stop_need_setpoint heard) as (_ & _ & H & _). exact (H Hv).
  - destruct (start_stop_need_setpoint []) as (H & _). exact (proj1 (H Hu)).
Defined.

(** C6 at the frames with state byte 0x23 and 0xFF. *)
Lemma ctrl_state_nibbles_witness :
  var_state_main (ctrl (fold_left (on_item t1000 "") (rx_step config "" ctrl_frame) init))
    = "Main: ожидание"
  /\ var_state_sub (ctrl (fold_left (on_item t1000 "") (rx_step config "" ctrl_frame) init))
     = "Sub:  перед ожиданием"
  /\ _last_main_state (fold_left (on_item t1000 "") (rx_step config "" ctrl_frame) init)
     = Some 2.
Proof.
  destruct (ctrl_state_nibbles config t1000 "" "" ctrl_frame 0x23 init
              ctrl_frame_matches eq_refl) as (Hm & _ & _ & _ & _ & H & _).
  destruct (H eq_refl) as (_ & _ & Hmain & Hsub).
  split; [exact Hmain|]. split; [exact Hsub|]. rewrite Hm. reflexivity.
Defined.

Example ctrl_state_ff :
  var_state_main (ctrl (fold_left (on_item t1000 "") (rx_step config "" ctrl_frame_ff) init))
    = "Main: неизв(15)"
  /\ var_state_sub (ctrl (fold_left (on_item t1000 "") (rx_step config "" ctrl_frame_ff) init))
     = "Sub:  неизв(15)"
  /\ _last_main_state (fold_left (on_item t1000 "") (rx_step config "" ctrl_frame_ff) init)
     = Some 15.
Proof. vm_compute. repeat split; reflexivity. Qed.

(** C7 as stated fails at byte 6 = 0x13: its low nibble 3 and its high
    nibble 1 are both in the Sub table, yet the Sub state shown is the
    unknown text of the whole byte, 19. *)
Lemma inverter_nibble_counterexample :
  msg_data inv_frame !! 6%nat = Some 0x13
  /\ var_inv_sub (inv (fold_left (on_item t1000 "") (rx_step config "" inv_frame) init))
     = "Sub:  неизв(19)"
  /\ INV_SUB !! low_nibble 0x13 = Some "плавное выключение"
  /\ INV_SUB !! high_nibble 0x13 = Some "включено"
  /\ var_inv_sub (inv (fold_left (on_item t1000 "") (rx_step config "" inv_frame) init))
     <> ("Sub:  " ++ default (unknown (low_nibble 0x13)) (INV_SUB !! low_nibble 0x13))%string
  /\ var_inv_sub (inv (fold_left (on_item t1000 "") (rx_step config "" inv_frame) init))
     <> ("Sub:  " ++ default (unknown (high_nibble 0x13)) (INV_SUB !! high_nibble 0x13))%string.
Proof. vm_compute. repeat split; try reflexivity; discriminate. Qed.

(** C7 as amended, at the same frame. *)
Lemma inverter_state_bytes_witness :
  var_inv_sub (inv (fold_left (on_item t1000 "") (rx_step config "" inv_frame) init))
    = ("Sub:  " ++ unknown 0x13)%string
  /\ var_inv_main (inv (fold_left (on_item t1000 "") (rx_step config "" inv_frame) init))
     = "—".
Proof.
  destruct (inverter_state_bytes config t1000 "" "" inv_frame init
              (proj1 inv_frame_matches) (proj2 inv_frame_matches)) as (Hs & Hm & _).
  rewrite Hs, Hm. split; reflexivity.
Defined.

Example set_mode_instances :
  mode_after [] = 0x20 /\ mode_after heard = 0x00 /\ mode_after silent = 0x00
  /\ mode_after (heard ++ [Tick t1020 "" [Telemetry {| tel_err := 0; tel_set := 22;
                      tel_temp := 24; tel_cond := 30; tel_fan_raw := 0;
                      tel_state_raw := 0x33; tel_raw := [] |}]]) = 0x20
  /\ trace (settle (run init heard) (on_set (run init heard)))
     = [BusSend {| arbitration_id := 0x5E0001; is_extended_id := true;
                   msg_data := [3; 0x00; 0; 0; 0; 0; 0; 25] |}]
  /\ trace (settle (run init [Client (Some client)])
              (on_set (run init [Client (Some client)])))
     = [BusSend {| arbitration_id := 0x5E0001; is_extended_id := true;
                   msg_data := [3; 0x20; 0; 0; 0; 0; 0; 25] |}].
Proof. vm_compute. repeat split; reflexivity. Qed.

End Instances.

(* ================================================================== *)
(** ** Further properties: the frame encoder *)
(* ================================================================== *)

Section EncoderMore.
Import CANClient Spec.

Lemma land_byte (x : Z) : is_byte (Z.land x 0xFF).
Proof.
  unfold is_byte. change 0xFF with (Z.ones 8). rewrite Z.land_ones by lia.
  apply Z.mod_pos_bound. lia.
Qed.

Lemma land_byte_id (x : Z) : is_byte x -> Z.land x 0xFF = x.
Proof.
  unfold is_byte. intros H. change 0xFF with (Z.ones 8).
  rewrite Z.land_ones by lia. apply Z.mod_small. lia.
Qed.

Lemma serialize_bytes (num width : Z) (en : string) :
  Forall is_byte (serialize num width en).
Proof.
  unfold serialize.
  repeat match goal with
         | |- context [if ?b then _ else _] => destruct b
         end; simpl; repeat (apply Forall_cons_2; [apply land_byte|]); apply Forall_nil_2.
Qed.

Lemma item_bytes_bytes (ctx : gmap string Py.value) (it : tpl_item) :
  Forall is_byte (item_bytes ctx it).
Proof.
  destruct it as [n|item]; simpl.
  - apply Forall_cons_2; [apply land_byte | apply Forall_nil_2].
  - destruct (field item); [apply serialize_bytes|].
    apply Forall_cons_2; [apply land_byte | apply Forall_nil_2].
Qed.

Lemma build_data_length (md : msg_def) (ctx : gmap string Py.value) :
  length (_build_data md ctx) = 8%nat.
Proof.
  rewrite build_data_eq, length_take, length_app, length_replicate. lia.
Qed.

Lemma emitted_bytes (md : msg_def) (ctx : gmap string Py.value) :
  Forall is_byte
    (match data md with
     | Some xs => map (fun x => Z.land x 0xFF) xs
     | None => concat (map (item_bytes ctx) (default [] (data_template md)))
     end).
Proof.
  destruct (data md) as [xs|].
  - apply Forall_map, Forall_forall. intros x _. apply land_byte.
  - apply Forall_concat, Forall_map, Forall_forall. intros it _.
    apply item_bytes_bytes.
Qed.

(** X1. Every element of the payload [_build_data] returns is a byte
    (0..255), whatever integers the literal list, the constants or the
    scaled values are (negative ones and ones beyond 255 included). *)
Theorem build_data_bytes (md : msg_def) (ctx : gmap string Py.value) :
  Forall is_byte (_build_data md ctx).
Proof.
  rewrite build_data_eq. apply Forall_take, Forall_app. split.
  - apply emitted_bytes.
  - apply Forall_replicate. unfold is_byte. lia.
Qed.

(** X2. A literal [data] list of at most 8 bytes is sent as it is,
    followed by zeros up to 8: the context plays no part. *)
Theorem build_data_literal_verbatim (md : msg_def) (ctx : gmap string Py.value)
        (xs : list Z) :
  data md = Some xs -> (length xs <= 8)%nat -> Forall is_byte xs ->
  _build_data md ctx = xs ++ replicate (8 - length xs) 0.
Proof.
  intros Hd Hlen Hb. rewrite build_data_eq, Hd.
  assert (map (fun x => Z.land x 0xFF) xs = xs) as ->.
  { clear Hd Hlen. induction Hb as [|x xs Hx _ IH]; simpl; [reflexivity|].
    by rewrite IH, (land_byte_id x Hx). }
  rewrite take_app_ge by lia. f_equal.
  rewrite take_replicate. f_equal. lia.
Qed.

(** X3. The endianness tag is read asymmetrically: at width 2 every
    tag other than ["le"] (compared in lower case) gives the big-endian
    order, at width 4 every tag other than ["be"] gives the little-endian
    order. A tag such as ["big"] is therefore big-endian at width 2 and
    little-endian at width 4. *)
Theorem endian_tag_asymmetry (ctx : gmap string Py.value) (key : string)
        (sc : option float) (tag : string) :
  lower tag <> "le" -> lower tag <> "be" ->
  field_bytes ctx key {| field := Some key; value := None; scale := sc;
                         bytes := Some 2; endian := Some tag |}
  = field_bytes ctx key {| field := Some key; value := None; scale := sc;
                           bytes := Some 2; endian := Some "be" |}
  /\ field_bytes ctx key {| field := Some key; value := None; scale := sc;
                            bytes := Some 4; endian := Some tag |}
     = field_bytes ctx key {| field := Some key; value := None; scale := sc;
                              bytes := Some 4; endian := Some "le" |}.
Proof.
  intros Hle Hbe. unfold field_bytes, serialize. simpl.
  destruct (String.eqb_spec (lower tag) "le") as [?|_]; [contradiction|].
  destruct (String.eqb_spec (lower tag) "be") as [?|_]; [contradiction|].
  split; reflexivity.
Qed.

Lemma le_value_2 (num : Z) :
  Z.land num 0xFF + 256 * Z.land (Z.shiftr num 8) 0xFF = num mod 2 ^ 16.
Proof.
  change 0xFF with (Z.ones 8). rewrite !Z.land_ones, Z.shiftr_div_pow2 by lia.
  change (2 ^ 16) with (2 ^ 8 * 2 ^ 8). rewrite Z.rem_mul_r by lia. reflexivity.
Qed.

(** X4. What the encoder writes can be read back: the bytes of width
    1, 2 and 4, taken in little-endian order (the big-endian ones
    reversed), stand for the number modulo 2^8, 2^16 and 2^32, so a
    negative number is written in two's complement. *)
Theorem serialize_round_trip (num : Z) :
  le_value (serialize num 1 "le") = num mod 2 ^ 8
  /\ le_value (serialize num 2 "le") = num mod 2 ^ 16
  /\ le_value (serialize num 4 "le") = num mod 2 ^ 32
  /\ le_value (rev (serialize num 2 "be")) = num mod 2 ^ 16
  /\ le_value (rev (serialize num 4 "be")) = num mod 2 ^ 32.
Proof.
  assert (le_value (serialize num 2 "le") = num mod 2 ^ 16) as H2.
  { unfold serialize, le_value. simpl fold_right.
    rewrite Z.mul_0_r, Z.add_0_r. apply le_value_2. }
  assert (le_value (serialize num 4 "le") = num mod 2 ^ 32) as H4.
  { unfold serialize, le_value. simpl fold_right. simpl Z.mul.
    rewrite Z.add_0_r.
    change (Z.shiftr num 0) with num.
    pose proof (le_value_2 num) as Hlo.
    pose proof (le_value_2 (Z.shiftr num 16)) as Hhi.
    rewrite Z.shiftr_shiftr in Hhi by lia. simpl Z.add in Hhi.
    change (2 ^ 32) with (2 ^ 16 * 2 ^ 16). rewrite Z.rem_mul_r by lia.
    rewrite <- Hlo. rewrite <- (Z.shiftr_div_pow2 num 16) by lia. rewrite <- Hhi.
    change (8 * 0) with 0. change (8 * 1) with 8. change (8 * 2) with 16.
    change (8 * 3) with 24. change (16 + 8) with 24. rewrite Z.shiftr_0_r.
    change (2 ^ 16) with 65536. ring. }
  split; [|split; [exact H2|split; [exact H4|split; [exact H2|exact H4]]]].
  unfold serialize, le_value. simpl.
  change 0xFF with (Z.ones 8). rewrite Z.land_ones by lia. lia.
Qed.

Lemma fmul_nonfinite (x y : float) :
  nonfinite x = true \/ nonfinite y = true -> round_int (fmul x y) = None.
Proof.
  intros [H|H]; destruct x as [?|?| |? ? ?], y as [?|?| |? ? ?];
    try discriminate H; reflexivity.
Qed.

(** X5. A value or a scale factor that is NaN or infinite does not stop
    the encoder: the field's number is 0, whatever the other operand
    is. *)
Theorem field_num_nonfinite (ctx : gmap string Py.value) (key : string) (sc : float) :
  nonfinite sc = true \/
  (exists x, ctx !! key = Some (VFloat x) /\ nonfinite x = true) ->
  field_num ctx key sc = 0.
Proof.
  intros H. unfold field_num.
  destruct (to_float (default (VInt 0) (ctx !! key))) as [x|] eqn:Hx; [|reflexivity].
  rewrite fmul_nonfinite; [reflexivity|].
  destruct H as [H|(y & Hy & H)]; [by right|].
  rewrite Hy in Hx. simpl in Hx. injection Hx as <-. by left.
Qed.

Lemma field_num_lookup (ctx ctx' : gmap string Py.value) (key : string) (sc : float) :
  ctx !! key = ctx' !! key -> field_num ctx key sc = field_num ctx' key sc.
Proof. intros H. unfold field_num. by rewrite H. Qed.

(** X6. The payload depends on the context only through the keys the
    template names: two contexts that agree on the [field] keys of the
    message give the same frame (so stray keys, and every key of a
    literal message, are ignored). *)
Theorem build_data_context (md : msg_def) (ctx ctx' : gmap string Py.value) :
  (forall item key,
     TDict item ∈ default [] (data_template md) -> field item = Some key ->
     ctx !! key = ctx' !! key) ->
  _build_data md ctx = _build_data md ctx'.
Proof.
  intros H. rewrite !build_data_eq. destruct (data md); [reflexivity|].
  do 2 f_equal. f_equal.
  apply map_ext_in. intros it Hin. apply list_elem_of_In in Hin.
  destruct it as [n|item]; [reflexivity|]. simpl.
  destruct (field item) as [key|] eqn:Hf; [|reflexivity].
  unfold field_bytes. by rewrite (field_num_lookup ctx ctx' key _ (H item key Hin Hf)).
Qed.

(** X7. An integer value from -256 to 1023 under the default scale is
    the field's number itself (the detour through floats loses nothing),
    so a field of the default width carries its low byte: a setpoint, a
    speed or a threshold arrives in the frame as sent, a negative
    threshold in two's complement. *)
Theorem field_num_small_int (ctx : gmap string Py.value) (key : string)
        (item : field_tpl) (z : Z) :
  ctx !! key = Some (VInt z) -> -256 <= z < 1024 ->
  field item = Some key -> scale item = None ->
  field_num ctx key one = z
  /\ (bytes item = None -> item_bytes ctx (TDict item) = [z mod 256]).
Proof.
  intros Hk Hz Hf Hs.
  assert (field_num ctx key one = z) as Hnum.
  { rewrite (field_num_lookup ctx {[ key := VInt z ]} key one)
      by (by rewrite Hk, lookup_singleton_eq).
    unfold field_num. rewrite lookup_singleton_eq.
    change (default (VInt 0) (Some (VInt z))) with (VInt z).
    assert (forallb (fun k => match to_float (VInt (k - 256)) with
                              | Some x => match round_int (fmul x one) with
                                          | Some n => n =? k - 256
                                          | None => false
                                          end
                              | None => false
                              end) (Z.of_nat <$> seq 0 1280) = true) as Hall
        by (vm_compute; reflexivity).
    rewrite forallb_forall in Hall.
    specialize (Hall (z + 256)). replace (z + 256 - 256) with z in Hall by lia.
    assert (In (z + 256) (Z.of_nat <$> seq 0 1280)) as Hin.
    { apply list_elem_of_In, list_elem_of_fmap. exists (Z.to_nat (z + 256)).
      split; [lia|]. apply elem_of_seq. lia. }
    specialize (Hall Hin).
    destruct (to_float (VInt z)) as [x|]; [|discriminate].
    destruct (round_int (fmul x one)) as [n|]; [|discriminate].
    by apply Z.eqb_eq. }
  split; [exact Hnum|].
  intros Hb. unfold item_bytes, field_bytes. rewrite Hf, Hs, Hb. simpl.
  rewrite Hnum. unfold serialize. simpl.
  change 0xFF with (Z.ones 8). rewrite Z.land_ones by lia. reflexivity.
Qed.

End EncoderMore.

(* ================================================================== *)
(** ** Further properties: sending and receiving *)
(* ================================================================== *)

Section Transport.
Import CANClient ACControllerApp Session Spec.

(** X8. [send_from_key] sends exactly when the bus is open, the key has
    a message entry and the entry has an id, whatever the context is; a
    closed bus is reported before the key is even looked up, and a
    missing key by its name. In no failing case is there a frame or a
    queue entry. *)
Theorem send_from_key_outcome (c : CANClient.t) (key : string)
        (ctx : gmap string Py.value) :
  ((exists m q, send_from_key c key ctx = inr (m, q))
   <-> bus c = true
       /\ exists md id, messages (cfg c) !! key = Some md /\ msg_id md = Some id)
  /\ (bus c = false -> send_from_key c key ctx = inl (RuntimeError "CAN не открыт"))
  /\ (bus c = true -> messages (cfg c) !! key = None ->
      send_from_key c key ctx
        = inl (RuntimeError ("Нет секции messages." ++ key)%string)).
Proof.
  unfold send_from_key. destruct (bus c); simpl.
  - destruct (messages (cfg c) !! key) as [md|] eqn:Hm.
    + destruct (msg_id md) as [id|] eqn:Hid.
      * assert (is_empty_def md = false) as ->
            by (unfold is_empty_def; by rewrite Hid).
        split; [|split; [discriminate|discriminate]].
        split; [intros _; split; [reflexivity|eauto]|]. intros _. eauto.
      * split; [|split; [discriminate|discriminate]].
        split.
        -- destruct (is_empty_def md); intros (m & q & [=]).
        -- intros (_ & md' & id & [= <-] & Hid'). congruence.
    + split; [|split; [discriminate|reflexivity]].
      split; [intros (m & q & [=])|]. intros (_ & md & id & [=] & _).
  - split; [|split; [reflexivity|discriminate]].
    split; [intros (m & q & [=])|]. intros ([=] & _).
Qed.

Lemma send_from_key_shape (c : CANClient.t) (key : string)
      (ctx : gmap string Py.value) (m : Message) (q : rx_item) :
  send_from_key c key ctx = inr (m, q) ->
  q = Tx {| tx_id := arbitration_id m; tx_ext := is_extended_id m;
            tx_data := msg_data m |}
  /\ exists md, messages (cfg c) !! key = Some md
       /\ msg_id md = Some (arbitration_id m)
       /\ is_extended_id m = default false (extended md)
       /\ msg_data m = _build_data md ctx.
Proof.
  unfold send_from_key. destruct (negb (bus c)); [discriminate|].
  destruct (messages (cfg c) !! key) as [md|]; [|discriminate].
  destruct (is_empty_def md); [discriminate|].
  destruct (msg_id md) as [id|] eqn:Hid; [|discriminate].
  intros [= <- <-]. simpl. split; [reflexivity|]. exists md. auto.
Qed.

(** X9. Whatever [send_from_key] hands to the bus is a well-formed
    frame: exactly 8 payload bytes, each 0..255, standard (not extended)
    unless the entry says otherwise; and the ['tx'] dictionary queued for
    the journal repeats the id, the flag and the bytes of that very
    frame. *)
Theorem sent_frame_well_formed (c : CANClient.t) (key : string)
        (ctx : gmap string Py.value) (m : Message) (q : rx_item) :
  send_from_key c key ctx = inr (m, q) ->
  length (msg_data m) = 8%nat
  /\ Forall is_byte (msg_data m)
  /\ q = Tx {| tx_id := arbitration_id m; tx_ext := is_extended_id m;
               tx_data := msg_data m |}
  /\ exists md, messages (cfg c) !! key = Some md
       /\ msg_id md = Some (arbitration_id m)
       /\ is_extended_id m = default false (extended md)
       /\ msg_data m = _build_data md ctx.
Proof.
  intros Hs. destruct (send_from_key_shape c key ctx m q Hs) as (Hq & md & Hm & Hid & He & Hd).
  split; [rewrite Hd; apply build_data_length|].
  split.
  - rewrite Hd, build_data_eq. apply Forall_take, Forall_app. split.
    + apply emitted_bytes.
    + apply Forall_replicate. unfold is_byte. lia.
  - split; [exact Hq|]. exists md. auto.
Qed.

(** X10. A press of START, STOP or SET does one of three things and
    nothing else: it leaves the state as it was (an exception left the
    handler), or it only shows the missing-setpoint warning, or it hands
    one 8-byte frame to the bus and queues the matching ['tx']
    dictionary. SET never shows the warning. The displays, the liveness
    records and the journal are not touched. *)
Theorem button_footprint (a : App) (ev : event) :
  ev = Start \/ ev = Stop \/ ev = SetPoint ->
  (step a ev = a
   \/ (ev <> SetPoint /\ step a ev = emit no_setpoint_warning a)
   \/ exists m, step a ev
                = deliver [Tx {| tx_id := arbitration_id m; tx_ext := is_extended_id m;
                                 tx_data := msg_data m |}] (emit (BusSend m) a)
                /\ length (msg_data m) = 8%nat)
  /\ ctrl (step a ev) = ctrl a /\ inv (step a ev) = inv a
  /\ txt_log (step a ev) = txt_log a
  /\ _ctrl_valid (step a ev) = _ctrl_valid a /\ _inv_valid (step a ev) = _inv_valid a.
Proof.
  assert (Hsend : forall key ctx,
             (settle a (_send_can key ctx a) = a
              \/ exists m, settle a (_send_can key ctx a)
                   = deliver [Tx {| tx_id := arbitration_id m;
                                    tx_ext := is_extended_id m;
                                    tx_data := msg_data m |}] (emit (BusSend m) a)
                   /\ length (msg_data m) = 8%nat)).
  { intros key ctx. unfold _send_can. destruct (_client a) as [c|]; [|by left].
    destruct (send_from_key c key ctx) as [e|[m q]] eqn:Hs; [by left|].
    right. exists m.
    destruct (send_from_key_shape c key ctx m q Hs) as (-> & md & _ & _ & _ & Hd).
    simpl. split; [reflexivity|]. rewrite Hd. apply build_data_length. }
  intros Hev.
  assert (step a ev = a
          \/ (ev <> SetPoint /\ step a ev = emit no_setpoint_warning a)
          \/ exists m, step a ev
               = deliver [Tx {| tx_id := arbitration_id m; tx_ext := is_extended_id m;
                                tx_data := msg_data m |}] (emit (BusSend m) a)
               /\ length (msg_data m) = 8%nat) as Hthree.
  { destruct Hev as [-> | [-> | ->]]; simpl.
    - unfold on_start. destruct (_get_state_setpoint a) as [v|].
      + destruct (Hsend "START" ({[ "value" := VInt v ]} : gmap string Py.value)); auto.
      + right. left. split; [discriminate|reflexivity].
    - unfold on_stop. destruct (_get_state_setpoint a) as [v|].
      + destruct (Hsend "STOP" ({[ "value" := VInt v ]} : gmap string Py.value)); auto.
      + right. left. split; [discriminate|reflexivity].
    - unfold on_set. destruct (Hsend "SET" (set_ctx a)); auto. }
  split; [exact Hthree|].
  destruct Hthree as [-> | [(_ & ->) | (m & -> & _)]]; auto 10.
Qed.

Lemma rx_step_shape (c : CANConfig) (ts : string) (msg : Message) :
  exists i s, rx_step c ts msg = [_dbg ts (rx_line msg); i; Text s]
              /\ forall t, i <> Tx t.
Proof.
  destruct (matches_dec (telemetry_id c) (telemetry_ext c) 8 msg) as [Hc|Hc].
  - destruct (rx_try_controller c msg Hc) as (?&?&?&?&?&?&_&_&_&_&_&_&Hr).
    unfold rx_step. rewrite Hr. eexists. eexists. split; [reflexivity|discriminate].
  - destruct (matches_dec (inverter_id c) (inverter_ext c) 3 msg) as [Hi|Hi].
    + destruct (rx_try_inverter c msg Hc Hi) as (?&?&?&_&_&_&Hr).
      unfold rx_step. rewrite Hr. eexists. eexists. split; [reflexivity|discriminate].
    + unfold rx_step. rewrite (rx_try_unmatched c msg Hc Hi).
      eexists. eexists. split; [reflexivity|discriminate].
Qed.

(** X11. The reader loop puts exactly three entries on the queue for
    every frame it receives (its debug line, the event or the first
    diagnostic line, and a text line) and none for a receive that timed
    out; it never puts a ['tx'] dictionary there. *)
Theorem rx_loop_three_per_frame (c : CANConfig) (recvs : list (string * option Message)) :
  length (_rx_loop c recvs)
    = (3 * length (List.filter (fun r => match r.2 with Some _ => true | None => false end)
                     recvs))%nat
  /\ Forall (fun i => forall t, i <> Tx t) (_rx_loop c recvs).
Proof.
  induction recvs as [|[ts [msg|]] recvs [IHl IHf]].
  - split; [reflexivity|constructor].
  - change (_rx_loop c ((ts, Some msg) :: recvs))
      with (rx_step c ts msg ++ _rx_loop c recvs).
    destruct (rx_step_shape c ts msg) as (i & s & -> & Hi).
    rewrite length_app, IHl. split; [simpl; lia|].
    apply Forall_app. split; [|exact IHf].
    repeat (apply Forall_cons_2; [|]); try apply Forall_nil_2;
      try discriminate; exact Hi.
  - split; [exact IHl|exact IHf].
Qed.

End Transport.

(* ================================================================== *)
(** ** Further properties: the poll loop *)
(* ================================================================== *)

Section PollMore.
Import CANClient ACControllerApp Session Spec.

Lemma pct_lookup (lvl s1 s2 s3 : Z) :
  0 <= lvl <= 3 ->
  default 0 ((list_to_map [(0, 0); (1, s1); (2, s2); (3, s3)] : gmap Z Z) !! lvl)
  = nth (Z.to_nat lvl) [0; s1; s2; s3] 0.
Proof.
  intros H.
  assert (lvl = 0 \/ lvl = 1 \/ lvl = 2 \/ lvl = 3) as [-> | [-> | [-> | ->]]] by lia;
    reflexivity.
Qed.

Lemma level_range (n : Z) : 0 <= Z.max 0 (Z.min 3 (Z.land n 0x0F)) <= 3.
Proof. lia. Qed.

Lemma level_min (n : Z) : Z.max 0 (Z.min 3 (Z.land n 0x0F)) = Z.min 3 (Z.land n 0xF).
Proof.
  assert (0 <= Z.land n 0xF) by (apply Z.land_nonneg; lia). lia.
Qed.

(** X12. A controller snapshot sets each fan level to its nibble of
    byte 6 cut off at 3 (the high nibble for the condenser, the low one
    for the evaporator), so a level is always 0..3; the percentage shown
    beside it is 0 at level 0 and otherwise the confirmed speed of that
    level. *)
Theorem fan_levels_clamped (now : float) (ts : string) (t : telemetry_item) (a : App) :
  var_fan_level_c (ctrl (on_telemetry now ts t a)) = Z.min 3 (high_nibble (tel_fan_raw t))
  /\ var_fan_level_e (ctrl (on_telemetry now ts t a)) = Z.min 3 (low_nibble (tel_fan_raw t))
  /\ 0 <= var_fan_level_c (ctrl (on_telemetry now ts t a)) <= 3
  /\ 0 <= var_fan_level_e (ctrl (on_telemetry now ts t a)) <= 3
  /\ var_fan_pct_c (ctrl (on_telemetry now ts t a))
     = nth (Z.to_nat (var_fan_level_c (ctrl (on_telemetry now ts t a))))
         [0; c1 (_speed_conf a); c2 (_speed_conf a); c3 (_speed_conf a)] 0
  /\ var_fan_pct_e (ctrl (on_telemetry now ts t a))
     = nth (Z.to_nat (var_fan_level_e (ctrl (on_telemetry now ts t a))))
         [0; e1 (_speed_conf a); e2 (_speed_conf a); e3 (_speed_conf a)] 0.
Proof.
  assert (var_fan_level_c (ctrl (on_telemetry now ts t a))
          = Z.max 0 (Z.min 3 (Z.land (Z.shiftr (tel_fan_raw t) 4) 0x0F))
          /\ var_fan_level_e (ctrl (on_telemetry now ts t a))
             = Z.max 0 (Z.min 3 (Z.land (tel_fan_raw t) 0x0F))
          /\ var_fan_pct_c (ctrl (on_telemetry now ts t a))
             = default 0 ((list_to_map
                             [(0, 0); (1, c1 (_speed_conf a)); (2, c2 (_speed_conf a));
                              (3, c3 (_speed_conf a))] : gmap Z Z)
                            !! Z.max 0 (Z.min 3 (Z.land (Z.shiftr (tel_fan_raw t) 4) 0x0F)))
          /\ var_fan_pct_e (ctrl (on_telemetry now ts t a))
             = default 0 ((list_to_map
                             [(0, 0); (1, e1 (_speed_conf a)); (2, e2 (_speed_conf a));
                              (3, e3 (_speed_conf a))] : gmap Z Z)
                            !! Z.max 0 (Z.min 3 (Z.land (tel_fan_raw t) 0x0F))))
    as (Hc & He & Hpc & Hpe).
  { unfold on_telemetry. destruct (tel_raw t); repeat split; reflexivity. }
  rewrite Hpc, Hpe, Hc, He.
  rewrite !pct_lookup by apply level_range.
  pose proof (level_range (Z.shiftr (tel_fan_raw t) 4)) as Hrc.
  pose proof (level_range (tel_fan_raw t)) as Hre.
  rewrite (level_min (Z.shiftr (tel_fan_raw t) 4)) in *.
  rewrite (level_min (tel_fan_raw t)) in *.
  unfold high_nibble, low_nibble. auto 10.
Qed.

Lemma set_rx_q_channel (q : list rx_item) (a : App) :
  _ctrl_valid (set_rx_q q a) = _ctrl_valid a
  /\ _last_ctrl_rx (set_rx_q q a) = _last_ctrl_rx a
  /\ _inv_valid (set_rx_q q a) = _inv_valid a
  /\ _last_inv_rx (set_rx_q q a) = _last_inv_rx a.
Proof. repeat split; reflexivity. Qed.

(** [_poll] as the timeout tests on the drained state, with the tests
    read on the state before. *)
Lemma poll_unfold (now : float) (ts : string) (a : App) :
  let a1 := fold_left (on_item now ts) (_rx_q a) (set_rx_q [] a) in
  _poll now ts a = inv_timeout now ts (ctrl_timeout now ts a1)
  /\ _ctrl_valid a1 && fgt (fsub now (_last_ctrl_rx a1)) TIMEOUT_S = fires Controller now a
  /\ _inv_valid a1 && fgt (fsub now (_last_inv_rx a1)) TIMEOUT_S = fires Inverter now a.
Proof.
  simpl. split; [reflexivity|].
  pose proof (drain_valid Controller now ts (_rx_q a) (set_rx_q [] a)) as (Hcv & Hcl).
  pose proof (drain_valid Inverter now ts (_rx_q a) (set_rx_q [] a)) as (Hiv & Hil).
  simpl in *. rewrite Hcv, Hcl, Hiv, Hil. split; reflexivity.
Qed.

(** X13. When the timeout of a channel fires, [_poll] puts the
    display of that channel back to exactly what it was at start-up (for
    the controller also the fan levels and percentages, 0); the
    remembered Main state is not cleared with it. *)
Theorem timeout_restores_initial_display (now : float) (ts : string) (a : App) :
  (fires Controller now a = true ->
     ctrl (_poll now ts a) = ctrl init
     /\ _last_main_state (_poll now ts a) = _last_main_state a)
  /\ (fires Inverter now a = true -> inv (_poll now ts a) = inv init).
Proof.
  destruct (poll_unfold now ts a) as (Hp & Hfc & Hfi). simpl in Hp, Hfc, Hfi.
  set (a1 := fold_left (on_item now ts) (_rx_q a) (set_rx_q [] a)) in *.
  split.
  - intros Hf. split.
    + rewrite Hp.
      destruct (inv_timeout_spec now ts (ctrl_timeout now ts a1)) as (_ & _ & _ & -> & _).
      unfold ctrl_timeout. rewrite Hfc, Hf. reflexivity.
    + destruct (poll_ctrl now ts a) as (_ & -> & _).
      destruct (has_snapshot Controller (_rx_q a)) eqn:Hhs.
      * rewrite (fires_snapshot Controller now a Hhs) in Hf. discriminate.
      * destruct (last_telemetry (_rx_q a) None) as [t|] eqn:E; [|reflexivity].
        assert (has_snapshot Controller (_rx_q a) = true)
          by (apply has_snapshot_last_telemetry; rewrite E; eauto).
        congruence.
  - intros Hf. rewrite Hp.
    destruct (ctrl_timeout_spec now ts a1) as (_ & _ & _ & _ & Hv & Hl & _).
    unfold inv_timeout. rewrite Hv, Hl, Hfi, Hf. reflexivity.
Qed.

Lemma on_item_log (now : float) (ts : string) (a : App) (i : rx_item) :
  exists l, txt_log (on_item now ts a i) = txt_log a ++ l
            /\ forall s, i = Text s -> l = [("[" ++ ts ++ "] " ++ s)%string].
Proof.
  destruct i as [t|i|t|s]; simpl.
  - unfold on_telemetry. destruct (tel_raw t).
    + exists []. split; [by rewrite app_nil_r|discriminate].
    + eexists. split; [reflexivity|discriminate].
  - unfold on_inv. destruct (inv_raw i).
    + exists []. split; [by rewrite app_nil_r|discriminate].
    + eexists. split; [reflexivity|discriminate].
  - eexists. split; [reflexivity|discriminate].
  - eexists. split; [reflexivity|]. by intros ? [= <-].
Qed.

Lemma drain_log (now : float) (ts : string) (items : list rx_item) (a : App) :
  exists l, txt_log (fold_left (on_item now ts) items a) = txt_log a ++ l
            /\ forall s, Text s ∈ items -> ("[" ++ ts ++ "] " ++ s)%string ∈ l.
Proof.
  revert a. induction items as [|i items IH]; intros a; simpl.
  - exists []. split; [by rewrite app_nil_r|]. intros s Hs. by apply elem_of_nil in Hs.
  - destruct (IH (on_item now ts a i)) as (l & -> & Hl).
    destruct (on_item_log now ts a i) as (l0 & -> & Hl0).
    exists (l0 ++ l). split; [by rewrite app_assoc|].
    intros s [<-|Hs]%elem_of_cons.
    + rewrite (Hl0 s eq_refl). apply elem_of_app. left. apply list_elem_of_here.
    + apply elem_of_app. right. auto.
Qed.

(** X14. [_poll] only ever adds to the journal and to the calls
    made: what was there before stays, in place; it leaves the queue
    empty; and every text line that was queued is in the journal
    afterwards, stamped with the clock reading. *)
Theorem poll_journal_grows (now : float) (ts : string) (a : App) :
  txt_log a `prefix_of` txt_log (_poll now ts a)
  /\ trace a `prefix_of` trace (_poll now ts a)
  /\ _rx_q (_poll now ts a) = []
  /\ forall s, Text s ∈ _rx_q a ->
       ("[" ++ ts ++ "] " ++ s)%string ∈ txt_log (_poll now ts a).
Proof.
  destruct (poll_ctrl now ts a) as (_ & _ & Hq & _).
  destruct (drain_log now ts (_rx_q a) (set_rx_q [] a)) as (l & Hl & Hin).
  destruct (drain_frame now ts (_rx_q a) (set_rx_q [] a)) as (Ht & _).
  simpl in Hl, Ht.
  assert (exists l2, txt_log (_poll now ts a) = (txt_log a ++ l) ++ l2) as (l2 & Hlog).
  { unfold _poll. rewrite <- Hl.
    set (a1 := fold_left (on_item now ts) (_rx_q a) (set_rx_q [] a)).
    unfold inv_timeout, ctrl_timeout.
    destruct (_ctrl_valid a1 && fgt (fsub now (_last_ctrl_rx a1)) TIMEOUT_S);
      match goal with |- context [if ?b then _ else _] => destruct b end;
      simpl; eexists; rewrite <- ?app_assoc; try reflexivity;
      by rewrite app_nil_r. }
  assert (exists e2, trace (_poll now ts a) = trace a ++ e2) as (e2 & Htr).
  { unfold _poll. rewrite <- Ht.
    set (a1 := fold_left (on_item now ts) (_rx_q a) (set_rx_q [] a)).
    destruct (ctrl_timeout_spec now ts a1) as (_ & _ & H3 & _).
    destruct (inv_timeout_spec now ts (ctrl_timeout now ts a1)) as (_ & _ & H3' & _).
    simpl in H3, H3'. rewrite H3', H3, <- app_assoc. eauto. }
  split; [rewrite Hlog, <- app_assoc; by apply prefix_app_r|].
  split; [rewrite Htr; by apply prefix_app_r|].
  split; [exact Hq|].
  intros s Hs. rewrite Hlog. apply elem_of_app. left. apply elem_of_app. right. auto.
Qed.

(** X15. When several controller snapshots are drained in one period
    the last one wins: after [_poll] the channel is valid with the time
    stamp of that period, the setpoint shown is that of the last
    snapshot, and START and STOP read exactly that number back from the
    display. *)
Theorem poll_last_snapshot_wins (now : float) (ts : string) (a : App) (t : telemetry_item) :
  last_telemetry (_rx_q a) None = Some t ->
  _ctrl_valid (_poll now ts a) = true
  /\ _last_ctrl_rx (_poll now ts a) = now
  /\ var_set (ctrl (_poll now ts a)) = str_int (tel_set t)
  /\ _get_state_setpoint (_poll now ts a) = Some (tel_set t)
  /\ _last_main_state (_poll now ts a) = Some (high_nibble (tel_state_raw t)).
Proof.
  intros Hlast.
  assert (has_snapshot Controller (_rx_q a) = true) as Hhs
      by (apply has_snapshot_last_telemetry; rewrite Hlast; eauto).
  pose proof (fires_snapshot Controller now a Hhs) as Hnf.
  destruct (poll_channel Controller now ts a) as (Hv & Hl & _).
  destruct (poll_ctrl now ts a) as (Hs & Hm & _).
  simpl in Hv, Hl. rewrite Hhs, Hnf in Hv. rewrite Hhs in Hl.
  rewrite Hnf, Hlast in Hs. rewrite Hlast in Hm.
  split; [exact Hv|]. split; [exact Hl|]. split; [exact Hs|]. split; [|exact Hm].
  unfold _get_state_setpoint. rewrite Hs. apply int_of_str_int.
Qed.

End PollMore.

Section PollIdle.
Import CANClient ACControllerApp Session Spec.

Lemma set_rx_q_same (a : App) : _rx_q a = [] -> set_rx_q [] a = a.
Proof. destruct a. simpl. by intros ->. Qed.

(** X19. Running [_poll] a second time at the same clock reading, with
    nothing new on the queue, changes nothing at all: no second reset, no
    second journal line. *)
Theorem poll_idempotent (now : float) (ts : string) (a : App) :
  _poll now ts (_poll now ts a) = _poll now ts a.
Proof.
  destruct (poll_ctrl now ts a) as (_ & _ & Hq & _).
  destruct (poll_channel Controller now ts a) as (Hcv & Hcl & _).
  destruct (poll_channel Inverter now ts a) as (Hiv & Hil & _).
  simpl in Hcv, Hcl, Hiv, Hil.
  set (a3 := _poll now ts a) in *.
  unfold _poll at 1. rewrite Hq. simpl. rewrite (set_rx_q_same a3 Hq).
  assert (ctrl_timeout now ts a3 = a3) as ->.
  { unfold ctrl_timeout. rewrite Hcv, Hcl. unfold fires. simpl.
    destruct (has_snapshot Controller (_rx_q a) || _ctrl_valid a);
      destruct (fgt _ TIMEOUT_S); reflexivity. }
  unfold inv_timeout. rewrite Hiv, Hil. unfold fires. simpl.
  destruct (has_snapshot Inverter (_rx_q a) || _inv_valid a);
    destruct (fgt _ TIMEOUT_S); reflexivity.
Qed.

Lemma on_item_other_ctrl (now : float) (ts : string) (a : App) (i : rx_item) :
  is_snapshot Controller i = false -> ctrl (on_item now ts a i) = ctrl a.
Proof.
  destruct i as [t|i|t|s]; simpl; try discriminate; intros _; try reflexivity.
  unfold on_inv. by destruct (inv_raw i).
Qed.

Lemma on_item_other_inv (now : float) (ts : string) (a : App) (i : rx_item) :
  is_snapshot Inverter i = false -> inv (on_item now ts a i) = inv a.
Proof.
  destruct i as [t|i|t|s]; simpl; try discriminate; intros _; try reflexivity.
  unfold on_telemetry. by destruct (tel_raw t).
Qed.

Lemma drain_other (now : float) (ts : string) (items : list rx_item) (a : App) :
  (has_snapshot Controller items = false ->
     ctrl (fold_left (on_item now ts) items a) = ctrl a)
  /\ (has_snapshot Inverter items = false ->
      inv (fold_left (on_item now ts) items a) = inv a).
Proof.
  revert a. induction items as [|i items IH]; intros a; simpl; [auto|].
  destruct (IH (on_item now ts a i)) as (IHc & IHi). split.
  - intros [Hi Hr]%orb_false_iff. rewrite (IHc Hr). by apply on_item_other_ctrl.
  - intros [Hi Hr]%orb_false_iff. rewrite (IHi Hr). by apply on_item_other_inv.
Qed.

(** X20. The two channels do not disturb one another: a period that
    brings no controller snapshot and does not time the controller out
    leaves the whole controller display, its liveness record and the
    remembered Main state as they were, whatever inverter frames, echoes
    and text lines were drained and whether or not the inverter timed
    out; and the same with the channels exchanged. *)
Theorem channels_independent (now : float) (ts : string) (a : App) :
  (has_snapshot Controller (_rx_q a) = false -> fires Controller now a = false ->
     ctrl (_poll now ts a) = ctrl a
     /\ _ctrl_valid (_poll now ts a) = _ctrl_valid a
     /\ _last_ctrl_rx (_poll now ts a) = _last_ctrl_rx a
     /\ _last_main_state (_poll now ts a) = _last_main_state a)
  /\ (has_snapshot Inverter (_rx_q a) = false -> fires Inverter now a = false ->
      inv (_poll now ts a) = inv a
      /\ _inv_valid (_poll now ts a) = _inv_valid a
      /\ _last_inv_rx (_poll now ts a) = _last_inv_rx a).
Proof.
  destruct (poll_unfold now ts a) as (Hp & Hfc & Hfi). simpl in Hp, Hfc, Hfi.
  destruct (drain_other now ts (_rx_q a) (set_rx_q [] a)) as (Hdc & Hdi).
  set (a1 := fold_left (on_item now ts) (_rx_q a) (set_rx_q [] a)) in *.
  split.
  - intros Hhs Hnf.
    destruct (poll_channel Controller now ts a) as (Hv & Hl & _).
    destruct (poll_ctrl now ts a) as (_ & Hm & _).
    simpl in Hv, Hl. rewrite Hhs, Hnf in Hv. rewrite Hhs in Hl.
    rewrite andb_true_r in Hv.
    split; [|split; [exact Hv|split; [exact Hl|]]].
    + rewrite Hp.
      destruct (inv_timeout_spec now ts (ctrl_timeout now ts a1)) as (_ & _ & _ & -> & _).
      unfold ctrl_timeout. rewrite Hfc, Hnf. by apply Hdc.
    + rewrite Hm. destruct (last_telemetry (_rx_q a) None) as [t|] eqn:E; [|reflexivity].
      assert (has_snapshot Controller (_rx_q a) = true)
        by (apply has_snapshot_last_telemetry; rewrite E; eauto).
      congruence.
  - intros Hhs Hnf.
    destruct (poll_channel Inverter now ts a) as (Hv & Hl & _).
    simpl in Hv, Hl. rewrite Hhs, Hnf in Hv. rewrite Hhs in Hl.
    rewrite andb_true_r in Hv.
    split; [|split; [exact Hv|exact Hl]].
    rewrite Hp.
    destruct (ctrl_timeout_spec now ts a1) as (_ & _ & _ & _ & Hcv & Hcl & _).
    unfold inv_timeout. rewrite Hcv, Hcl, Hfi, Hnf.
    assert (inv (ctrl_timeout now ts a1) = inv a1) as ->.
    { unfold ctrl_timeout. by destruct (_ctrl_valid a1 && _). }
    by apply Hdi.
Qed.

End PollIdle.

(* ================================================================== *)
(** ** Further properties: error text, speeds and the serial port *)
(* ================================================================== *)

Section Console.
Import CANClient ACControllerApp Session Spec.

Lemma format_low_bits (mask : Z) :
  _format_inv_errors mask = _format_inv_errors (Z.land mask 0x1F).
Proof.
  unfold _format_inv_errors.
  rewrite <- !Z.land_assoc.
  change (Z.land 0x1F 0x01) with 0x01. change (Z.land 0x1F 0x02) with 0x02.
  change (Z.land 0x1F 0x04) with 0x04. change (Z.land 0x1F 0x08) with 0x08.
  change (Z.land 0x1F 0x10) with 0x10. reflexivity.
Qed.

Lemma low_bits_range (mask : Z) : 0 <= Z.land mask 0x1F < 32.
Proof.
  change 0x1F with (Z.ones 5). rewrite Z.land_ones by lia.
  apply Z.mod_pos_bound. lia.
Qed.

Lemma testbit_low_bits (mask : Z) (i : Z) :
  0 <= i < 5 -> Z.testbit (Z.land mask 0x1F) i = Z.testbit mask i.
Proof.
  intros Hi. rewrite Z.land_spec.
  assert (i = 0 \/ i = 1 \/ i = 2 \/ i = 3 \/ i = 4) as [-> | [-> | [-> | [-> | ->]]]] by lia;
    simpl; apply andb_true_r.
Qed.

(** X16. The inverter error text depends on the five low bits of the
    mask only; it is the dash exactly when none of them is set; and each
    of the five messages is part of it exactly when its bit is set. *)
Theorem format_inv_errors_bits (mask : Z) :
  _format_inv_errors mask = _format_inv_errors (Z.land mask 0x1F)
  /\ (_format_inv_errors mask = "—" <-> Z.land mask 0x1F = 0)
  /\ contains "Превышение макс. тока" (_format_inv_errors mask) = Z.testbit mask 0
  /\ contains "Не норма U1" (_format_inv_errors mask) = Z.testbit mask 1
  /\ contains "Не норма U2" (_format_inv_errors mask) = Z.testbit mask 2
  /\ contains "Превышение макс. температуры" (_format_inv_errors mask) = Z.testbit mask 3
  /\ contains "Флаг 18В" (_format_inv_errors mask) = Z.testbit mask 4.
Proof.
  split; [apply format_low_bits|].
  rewrite format_low_bits.
  rewrite <- (testbit_low_bits mask 0), <- (testbit_low_bits mask 1),
    <- (testbit_low_bits mask 2), <- (testbit_low_bits mask 3),
    <- (testbit_low_bits mask 4) by lia.
  pose proof (low_bits_range mask) as Hr.
  set (m := Z.land mask 0x1F) in *.
  assert (forallb (fun k =>
            Bool.eqb (String.eqb (_format_inv_errors k) "—") (k =? 0)
            && Bool.eqb (contains "Превышение макс. тока" (_format_inv_errors k))
                 (Z.testbit k 0)
            && Bool.eqb (contains "Не норма U1" (_format_inv_errors k)) (Z.testbit k 1)
            && Bool.eqb (contains "Не норма U2" (_format_inv_errors k)) (Z.testbit k 2)
            && Bool.eqb (contains "Превышение макс. температуры" (_format_inv_errors k))
                 (Z.testbit k 3)
            && Bool.eqb (contains "Флаг 18В" (_format_inv_errors k)) (Z.testbit k 4))
            (Z.of_nat <$> seq 0 32) = true) as Hall by (vm_compute; reflexivity).
  rewrite forallb_forall in Hall. specialize (Hall m).
  assert (In m (Z.of_nat <$> seq 0 32)) as Hin.
  { apply list_elem_of_In, list_elem_of_fmap. exists (Z.to_nat m).
    split; [lia|]. apply elem_of_seq. lia. }
  specialize (Hall Hin).
  repeat (apply andb_true_iff in Hall; destruct Hall as [Hall ?]).
  repeat match goal with
         | H : Bool.eqb _ _ = true |- _ => apply Bool.eqb_prop in H
         end.
  split; [|auto 10].
  rewrite <- String.eqb_eq, <- Z.eqb_eq. by rewrite Hall.
Qed.

(** X17. "Send speeds" confirms the slider values only when the
    frame has gone out: if the send raises, so does the handler, before
    the confirmed speeds or the gauges are touched; if it returns, the
    confirmed speeds are the slider values, the fan levels are as before
    and each percentage is the new speed of the current level. It
    succeeds exactly when the client is connected with its bus open and
    the [PARAMS_SPEED] entry has an id. *)
Theorem speeds_confirmed_on_send (v : speed_conf) (a : App) :
  (forall e, _send_can "PARAMS_SPEED" (speed_ctx v) a = inl e ->
             on_send_speeds v a = inl e)
  /\ (forall a', on_send_speeds v a = inr a' ->
        _speed_conf a' = v
        /\ var_fan_level_c (ctrl a') = var_fan_level_c (ctrl a)
        /\ var_fan_level_e (ctrl a') = var_fan_level_e (ctrl a)
        /\ (0 <= var_fan_level_c (ctrl a) <= 3 ->
            var_fan_pct_c (ctrl a')
            = nth (Z.to_nat (var_fan_level_c (ctrl a))) [0; c1 v; c2 v; c3 v] 0)
        /\ (0 <= var_fan_level_e (ctrl a) <= 3 ->
            var_fan_pct_e (ctrl a')
            = nth (Z.to_nat (var_fan_level_e (ctrl a))) [0; e1 v; e2 v; e3 v] 0)
        /\ exists m, trace a' = trace a ++ [BusSend m] /\ length (msg_data m) = 8%nat)
  /\ ((exists a', on_send_speeds v a = inr a')
      <-> exists c md id, _client a = Some c /\ bus c = true
            /\ messages (cfg c) !! "PARAMS_SPEED" = Some md /\ msg_id md = Some id).
Proof.
  unfold on_send_speeds, _send_can.
  split; [by intros e ->|]. split.
  - intros a'. destruct (_client a) as [c|]; [|discriminate].
    destruct (send_from_key c "PARAMS_SPEED" (speed_ctx v)) as [e|[m q]] eqn:Hs;
      [discriminate|].
    intros [= <-].
    assert (length (msg_data m) = 8%nat) as Hlen.
    { destruct (send_from_key_shape c _ _ m q Hs) as (_ & md & _ & _ & _ & ->).
      apply build_data_length. }
    split; [reflexivity|]. split; [reflexivity|]. split; [reflexivity|].
    split; [|split].
    + intros Hl. apply (pct_lookup _ (c1 v) (c2 v) (c3 v) Hl).
    + intros Hl. apply (pct_lookup _ (e1 v) (e2 v) (e3 v) Hl).
    + exists m. split; [reflexivity|exact Hlen].
  - destruct (_client a) as [c|].
    + unfold send_from_key. split.
      * intros (a' & Ha'). destruct (bus c) eqn:Hb; [|discriminate]. simpl in Ha'.
        destruct (messages (cfg c) !! "PARAMS_SPEED") as [md|] eqn:Hm; [|discriminate].
        destruct (is_empty_def md); [discriminate|].
        destruct (msg_id md) as [id|] eqn:Hid; [|discriminate].
        exists c, md, id. repeat split; reflexivity || assumption.
      * intros (c' & md & id & [= <-] & -> & -> & Hid). simpl.
        assert (is_empty_def md = false) as ->
            by (unfold is_empty_def; by rewrite Hid).
        rewrite Hid. eauto.
    + split; [intros (a' & [=])|]. intros (c & md & id & [=] & _).
Qed.



End Console.

(* ================================================================== *)
(** ** Worked instances of the further properties *)
(* ================================================================== *)

Section InstancesMore.
Import CANClient ACControllerApp Session Spec Sample.

(** X2 at a literal message of three bytes. *)
Lemma build_data_literal_verbatim_witness :
  _build_data literal3 stray_ctx = [1; 2; 3] ++ replicate (8 - length [1; 2; 3]) 0.
Proof.
  apply (build_data_literal_verbatim literal3 stray_ctx [1; 2; 3]);
    [reflexivity | simpl; lia |].
  repeat (apply Forall_cons_2; [unfold is_byte; lia|]). apply Forall_nil_2.
Defined.

(** X3 at the tag ["big"]. *)
Lemma endian_tag_asymmetry_witness :
  field_bytes (value_ctx 0x01020304) "value"
    {| field := Some "value"; value := None; scale := None;
       bytes := Some 2; endian := Some "big" |} = [0x03; 0x04]
  /\ field_bytes (value_ctx 0x01020304) "value"
       {| field := Some "value"; value := None; scale := None;
          bytes := Some 4; endian := Some "big" |} = [0x04; 0x03; 0x02; 0x01].
Proof.
  destruct (endian_tag_asymmetry (value_ctx 0x01020304) "value" None "big")
    as (H2 & H4); [discriminate | discriminate |].
  rewrite H2, H4. split; reflexivity.
Defined.

(** X5 at a NaN value. *)
Lemma field_num_nonfinite_witness :
  field_num {[ "value" := VFloat S754_nan ]} "value" half = 0.
Proof.
  apply field_num_nonfinite. right. exists S754_nan. split; reflexivity.
Defined.

(** X6 at START with a stray key in the context. *)
Lemma build_data_context_witness :
  _build_data start_def (value_ctx 22) = _build_data start_def stray_ctx.
Proof.
  apply build_data_context. intros item key Hin Hf.
  simpl in Hin.
  repeat (apply elem_of_cons in Hin as [Hin|Hin]; [try discriminate Hin|]).
  - injection Hin as ->. injection Hf as <-. reflexivity.
  - by apply elem_of_nil in Hin.
Defined.

(** X7 at the setpoint 22 and at the threshold -5. *)
Lemma field_num_small_int_witness :
  (field_num (value_ctx 22) "value" one = 22
   /\ (bytes value_field = None ->
       item_bytes (value_ctx 22) (TDict value_field) = [22 mod 256]))
  /\ item_bytes (value_ctx (-5)) (TDict value_field) = [251].
Proof.
  split.
  - apply (field_num_small_int (value_ctx 22) "value" value_field 22);
      [reflexivity | lia | reflexivity | reflexivity].
  - destruct (field_num_small_int (value_ctx (-5)) "value" value_field (-5)) as (_ & H);
      [reflexivity | lia | reflexivity | reflexivity |].
    rewrite (H eq_refl). reflexivity.
Defined.

(** X9 at START with the setpoint 22. *)
Lemma sent_frame_well_formed_witness :
  send_from_key client "START" (value_ctx 22)
  = inr ({| arbitration_id := 0x5E0001; is_extended_id := true;
            msg_data := [1; 0; 0; 0; 0; 0; 0; 22] |},
         Tx {| tx_id := 0x5E0001; tx_ext := true;
               tx_data := [1; 0; 0; 0; 0; 0; 0; 22] |})
  /\ length [1; 0; 0; 0; 0; 0; 0; 22] = 8%nat
  /\ Forall is_byte [1; 0; 0; 0; 0; 0; 0; 22].
Proof.
  split; [reflexivity|].
  destruct (sent_frame_well_formed client "START" (value_ctx 22)
              {| arbitration_id := 0x5E0001; is_extended_id := true;
                 msg_data := [1; 0; 0; 0; 0; 0; 0; 22] |}
              (Tx {| tx_id := 0x5E0001; tx_ext := true;
                     tx_data := [1; 0; 0; 0; 0; 0; 0; 22] |}) eq_refl)
    as (Hl & Hb & _).
  split; [exact Hl | exact Hb].
Defined.

(** X10 at START pressed after a snapshot was heard. *)
Lemma button_footprint_witness :
  ctrl (step (run init heard) Start) = ctrl (run init heard)
  /\ txt_log (step (run init heard) Start) = txt_log (run init heard).
Proof.
  destruct (button_footprint (run init heard) Start (or_introl eq_refl))
    as (_ & Hc & _ & Hl & _).
  split; [exact Hc | exact Hl].
Defined.

(** X13 at the check 10.1 s after the only snapshot. *)
Lemma timeout_restores_initial_display_witness :
  ctrl (_poll t1010_1 "12:00:10" (run init heard)) = ctrl init
  /\ _last_main_state (_poll t1010_1 "12:00:10" (run init heard)) = Some 2.
Proof.
  destruct (timeout_restores_initial_display t1010_1 "12:00:10" (run init heard))
    as (H & _).
  destruct (H eq_refl) as (Hc & Hm). split; [exact Hc|]. rewrite Hm. reflexivity.
Defined.

(** X15 at a queue that holds two snapshots. *)
Lemma poll_last_snapshot_wins_witness :
  _get_state_setpoint
    (_poll t1000 "12:00:00" (deliver [Telemetry older_snapshot; Telemetry snapshot] init))
  = Some 22.
Proof.
  destruct (poll_last_snapshot_wins t1000 "12:00:00"
              (deliver [Telemetry older_snapshot; Telemetry snapshot] init) snapshot
              eq_refl) as (_ & _ & _ & H & _).
  exact H.
Defined.

(** X17 at a connected client that knows the speeds message. *)
Lemma speeds_confirmed_on_send_witness :
  exists a', on_send_speeds sliders (set_client (Some speed_client) init) = inr a'.
Proof.
  destruct (speeds_confirmed_on_send sliders (set_client (Some speed_client) init))
    as (_ & _ & H).
  apply H. exists speed_client, speed_def, 0x5E0003. repeat split; reflexivity.
Defined.

Example send_speeds_instance :
  trace (settle init (on_send_speeds sliders (set_client (Some speed_client) init)))
    = [BusSend {| arbitration_id := 0x5E0003; is_extended_id := true;
                  msg_data := [20; 50; 80; 25; 55; 100; 0; 0] |}]
  /\ on_send_speeds sliders init = inl (RuntimeError "CAN не подключен")
  /\ on_send_temps 36 38 2 (-3) init = inl (RuntimeError "CAN не подключен").
Proof. vm_compute. repeat split; reflexivity. Qed.


(** X20 at an inverter event drained while the controller is valid. *)
Lemma channels_independent_witness :
  ctrl (_poll t1009_9 "12:00:09" (deliver [Inv inv_event] (run init heard)))
  = ctrl (run init heard).
Proof.
  destruct (channels_independent t1009_9 "12:00:09"
              (deliver [Inv inv_event] (run init heard))) as (H & _).
  destruct (H eq_refl eq_refl) as (Hc & _). exact Hc.
Defined.

Example rx_loop_instance :
  length (_rx_loop config [("12:00:00", Some ctrl_frame); ("12:00:00", None);
                           ("12:00:01", Some foreign_frame)]) = 6%nat.
Proof. reflexivity. Qed.

End InstancesMore.
